(** * Reminder tool handlers of the Apple Events MCP server

    A shallow embedding of [tools/handlers/reminderHandlers.ts],
    [tools/handlers/shared.ts] and [utils/errorHandling.ts], with the
    properties of the request pipeline stated and proved over it.

    Conventions of the embedding:
    - a JavaScript string is a [string]; the line feed is [LF];
    - an object read as a dictionary (the raw tool arguments, the output of
      the validator) is a [gmap string JsValue]; an absent key reads as
      [None], which is JavaScript's [undefined];
    - an [async] function that may throw is a value of [Outcome A]:
      [Resolved a] for a fulfilled promise, [Rejected e] for a thrown value
      or a rejected promise; [await] and sequencing are the bind of that
      type;
    - [process.env] is a record that is passed explicitly. *)

From Stdlib Require Import String Ascii Bool List Lia.
From stdpp Require Import gmap strings list pretty.

(** ** Strings *)

Definition LF : string := String (ascii_of_nat 10) EmptyString.
Definition DQUOTE : string := String (ascii_of_nat 34) EmptyString.

(** [lines.join(sep)] *)
Fixpoint join (sep : string) (lines : list string) : string :=
  match lines with
  | [] => ""
  | [l] => l
  | l :: rest => l +:+ sep +:+ join sep rest
  end.

(** [s.includes(t)] *)
Fixpoint includes (s t : string) : bool :=
  String.prefix t s ||
  match s with
  | EmptyString => false
  | String _ s' => includes s' t
  end.

(** [s.startsWith(t)] *)
Definition startsWith (s t : string) : bool := String.prefix t s.

(** A string that holds no line feed. *)
Fixpoint singleLine (s : string) : bool :=
  match s with
  | EmptyString => true
  | String c s' => negb (Ascii.eqb c (ascii_of_nat 10)) && singleLine s'
  end.

(** ** JavaScript values *)

Inductive JsValue : Type :=
  | JsNull
  | JsBoolean (b : bool)
  | JsNumber (n : Z)
  | JsString (s : string).

(** Truthiness of a property read: [undefined], [null], [false], [0] and the
    empty string are falsy. *)
Definition truthy (v : option JsValue) : bool :=
  match v with
  | None => false
  | Some JsNull => false
  | Some (JsBoolean b) => b
  | Some (JsNumber n) => negb (Z.eqb n 0)
  | Some (JsString s) => negb (String.eqb s "")
  end.

(** Truthiness of an optional string field. *)
Definition present (v : option string) : bool :=
  match v with
  | Some s => negb (String.eqb s "")
  | None => false
  end.

(** [`${v}`] for an optional string. *)
Definition interpolate (v : option string) : string :=
  match v with
  | Some s => s
  | None => "undefined"
  end.

(** ** Thrown values and outcomes of asynchronous operations *)

(** What a [catch] clause can receive, as far as [createErrorMessage] tells
    them apart: [ValidationError] is the class exported by
    [validation/schemas], a subclass of [Error]; [OtherError] is any other
    instance of [Error]; [NotAnError] is any other thrown value. *)
Inductive Thrown : Type :=
  | ValidationError (message : string)
  | OtherError (message : string)
  | NotAnError.

Inductive Outcome (A : Type) : Type :=
  | Resolved (a : A)
  | Rejected (e : Thrown).
Arguments Resolved {A} a.
Arguments Rejected {A} e.

Definition bind {A B : Type} (m : Outcome A) (k : A -> Outcome B) : Outcome B :=
  match m with
  | Resolved a => k a
  | Rejected e => Rejected e
  end.

Notation "'await' x <- m ; k" := (bind m (fun x => k))
  (at level 10, x name, m at level 100, k at level 200).

(** ** utils/errorHandling.ts *)

Record ProcessEnv : Type := {
  NODE_ENV : option string;
  DEBUG : option string
}.

Record TextContent : Type := {
  type : string;
  text : string
}.

Record CallToolResult : Type := {
  content : list TextContent;
  isError : bool
}.

(** [error instanceof Error ? error.message : 'System error occurred'] *)
Definition messageOf (error : Thrown) : string :=
  match error with
  | ValidationError m => m
  | OtherError m => m
  | NotAnError => "System error occurred"
  end.

Definition instanceofValidationError (error : Thrown) : bool :=
  match error with
  | ValidationError _ => true
  | _ => false
  end.

(** [process.env.NODE_ENV === 'development' || process.env.DEBUG], as the
    condition of the conditional expression reads it. *)
Definition isDev (env : ProcessEnv) : bool :=
  match NODE_ENV env with
  | Some v => String.eqb v "development"
  | None => false
  end || present (DEBUG env).

Definition createErrorMessage (env : ProcessEnv) (operation : string)
    (error : Thrown) : string :=
  let message := messageOf error in
  if instanceofValidationError error then message
  else if isDev env
       then "Failed to " +:+ operation +:+ ": " +:+ message
       else "Failed to " +:+ operation +:+ ": System error occurred".

Definition handleAsyncOperation (env : ProcessEnv)
    (operation : unit -> Outcome string) (operationName : string)
    : CallToolResult :=
  match operation tt with
  | Resolved result =>
      {| content := [ {| type := "text"; text := result |} ];
         isError := false |}
  | Rejected error =>
      {| content := [ {| type := "text";
                         text := createErrorMessage env operationName error |} ];
         isError := true |}
  end.

(** ** utils/helpers.ts and validation/schemas.ts, as the handlers use them *)

(** A reminder as [formatReminderMarkdown] declares its parameter. *)
Module Reminder.
Record t : Type := make {
  title : string;
  isCompleted : bool;
  list : option string;
  id : option string;
  notes : option string;
  dueDate : option string;
  url : option string
}.
End Reminder.

(** An object literal [{k1: v1, ...}]; a property whose value is [undefined]
    reads like an absent one. *)
Fixpoint jsObject (props : list (string * option JsValue))
    : gmap string JsValue :=
  match props with
  | [] => ∅
  | (k, Some v) :: rest => <[k := v]> (jsObject rest)
  | (_, None) :: rest => jsObject rest
  end.

(** [`${v}`] for a property read. *)
Definition jsToString (v : option JsValue) : string :=
  match v with
  | None => "undefined"
  | Some JsNull => "null"
  | Some (JsBoolean true) => "true"
  | Some (JsBoolean false) => "false"
  | Some (JsNumber n) => pretty n
  | Some (JsString s) => s
  end.

(** [reminderRepository], the adapter in front of the native helper. *)
Record ReminderRepository : Type := {
  createReminder : gmap string JsValue -> Outcome Reminder.t;
  updateReminder : gmap string JsValue -> Outcome Reminder.t;
  deleteReminder : option JsValue -> Outcome unit;
  findReminderById : option JsValue -> Outcome Reminder.t;
  findReminders : gmap string JsValue -> Outcome (list Reminder.t)
}.

(** The four schemas the reminder handlers validate against. *)
Inductive ReminderSchema : Type :=
  | CreateReminderSchema
  | DeleteReminderSchema
  | ReadRemindersSchema
  | UpdateReminderSchema.

(** ** tools/handlers/shared.ts *)

Section Shared.
Context {Schema : Type}.
(** [validateInput] of [validation/schemas]: returns the validated object
    or throws. *)
Variable validateInput :
  Schema -> gmap string JsValue -> Outcome (gmap string JsValue).

Definition extractAndValidateArgs (args : option (gmap string JsValue))
    (schema : Schema) : Outcome (gmap string JsValue) :=
  let rest := delete "action" (default ∅ args) in
  validateInput schema rest.
End Shared.

Definition formatListMarkdown {T : Type} (title : string) (items : list T)
    (formatItem : T -> list string) (emptyMessage : string) : string :=
  let lines :=
    [ "### " +:+ title +:+ " (Total: " +:+ pretty (length items) +:+ ")"; "" ] in
  let lines :=
    if Nat.eqb (length items) 0
    then lines ++ [emptyMessage]
    else fold_left (fun acc item => acc ++ formatItem item) items lines in
  join LF lines.

Inductive SuccessAction : Type := created | updated.

Definition formatSuccessMessage (action : SuccessAction)
    (itemType title id : string) : string :=
  let actionText :=
    match action with created => "created" | updated => "updated" end in
  let prefix :=
    if match action with updated => true | created => false end
       && String.eqb itemType "list"
    then "Successfully updated " +:+ itemType +:+ " to"
    else "Successfully " +:+ actionText +:+ " " +:+ itemType in
  prefix +:+ " " +:+ DQUOTE +:+ title +:+ DQUOTE +:+ "." +:+ LF
    +:+ "- ID: " +:+ id.

Record DeleteMessageOptions : Type := {
  useQuotes : option bool;
  useIdPrefix : option bool;
  usePeriod : option bool;
  useColon : option bool
}.

Definition formatDeleteMessage (itemType identifier : string)
    (options : DeleteMessageOptions) : string :=
  let useQuotes := default true (useQuotes options) in
  let useIdPrefix := default true (useIdPrefix options) in
  let usePeriod := default true (usePeriod options) in
  let useColon := default true (useColon options) in
  let formattedId :=
    if useQuotes then DQUOTE +:+ identifier +:+ DQUOTE else identifier in
  let idPart :=
    if useIdPrefix
    then let separator := if useColon then ": " else " " in
         "with ID" +:+ separator +:+ formattedId
    else formattedId in
  let period := if usePeriod then "." else "" in
  "Successfully deleted " +:+ itemType +:+ " " +:+ idPart +:+ period.

(** ** tools/handlers/reminderHandlers.ts *)

Section ReminderHandlers.
Variable env : ProcessEnv.
(** [formatMultilineNotes] of [utils/helpers]. *)
Variable formatMultilineNotes : string -> string.
Variable validateInput :
  ReminderSchema -> gmap string JsValue -> Outcome (gmap string JsValue).
Variable reminderRepository : ReminderRepository.

Definition formatReminderMarkdown (reminder : Reminder.t) : list string :=
  let lines := [] in
  let checkbox := if Reminder.isCompleted reminder then "[x]" else "[ ]" in
  let lines := lines ++ ["- " +:+ checkbox +:+ " " +:+ Reminder.title reminder] in
  let lines :=
    if present (Reminder.list reminder)
    then lines ++ ["  - List: " +:+ interpolate (Reminder.list reminder)]
    else lines in
  let lines :=
    if present (Reminder.id reminder)
    then lines ++ ["  - ID: " +:+ interpolate (Reminder.id reminder)]
    else lines in
  let lines :=
    if present (Reminder.notes reminder)
    then lines ++ ["  - Notes: " +:+
                     formatMultilineNotes (interpolate (Reminder.notes reminder))]
    else lines in
  let lines :=
    if present (Reminder.dueDate reminder)
    then lines ++ ["  - Due: " +:+ interpolate (Reminder.dueDate reminder)]
    else lines in
  let lines :=
    if present (Reminder.url reminder)
    then lines ++ ["  - URL: " +:+ interpolate (Reminder.url reminder)]
    else lines in
  lines.

Definition handleCreateReminder (args : gmap string JsValue)
    : CallToolResult :=
  handleAsyncOperation env (fun _ =>
    await validatedArgs <-
      extractAndValidateArgs validateInput (Some args) CreateReminderSchema;
    await reminder <-
      createReminder reminderRepository (jsObject [
        ("title", validatedArgs !! "title");
        ("notes", validatedArgs !! "note");
        ("url", validatedArgs !! "url");
        ("list", validatedArgs !! "targetList");
        ("dueDate", validatedArgs !! "dueDate") ]);
    Resolved (formatSuccessMessage created "reminder"
                (Reminder.title reminder)
                (interpolate (Reminder.id reminder))))
    "create reminder".

Definition handleUpdateReminder (args : gmap string JsValue)
    : CallToolResult :=
  handleAsyncOperation env (fun _ =>
    await validatedArgs <-
      extractAndValidateArgs validateInput (Some args) UpdateReminderSchema;
    await reminder <-
      updateReminder reminderRepository (jsObject [
        ("id", validatedArgs !! "id");
        ("newTitle", validatedArgs !! "title");
        ("notes", validatedArgs !! "note");
        ("url", validatedArgs !! "url");
        ("isCompleted", validatedArgs !! "completed");
        ("list", validatedArgs !! "targetList");
        ("dueDate", validatedArgs !! "dueDate") ]);
    Resolved (formatSuccessMessage updated "reminder"
                (Reminder.title reminder)
                (interpolate (Reminder.id reminder))))
    "update reminder".

Definition handleDeleteReminder (args : gmap string JsValue)
    : CallToolResult :=
  handleAsyncOperation env (fun _ =>
    await validatedArgs <-
      extractAndValidateArgs validateInput (Some args) DeleteReminderSchema;
    await _ <- deleteReminder reminderRepository (validatedArgs !! "id");
    Resolved (formatDeleteMessage "reminder"
                (jsToString (validatedArgs !! "id"))
                {| useQuotes := Some false; useIdPrefix := Some true;
                   usePeriod := Some false; useColon := None |}))
    "delete reminder".

Definition handleReadReminders (args : gmap string JsValue)
    : CallToolResult :=
  handleAsyncOperation env (fun _ =>
    await validatedArgs <-
      extractAndValidateArgs validateInput (Some args) ReadRemindersSchema;
    if truthy (args !! "id")
    then
      await reminder <-
        findReminderById reminderRepository (args !! "id");
      let markdownLines :=
        ["### Reminder"; ""] ++ formatReminderMarkdown reminder in
      Resolved (join LF markdownLines)
    else
      await reminders <-
        findReminders reminderRepository (jsObject [
          ("list", validatedArgs !! "filterList");
          ("showCompleted", validatedArgs !! "showCompleted");
          ("search", validatedArgs !! "search");
          ("dueWithin", validatedArgs !! "dueWithin") ]);
      Resolved (formatListMarkdown "Reminders" reminders
                  formatReminderMarkdown
                  "No reminders found matching the criteria."))
    "read reminders".
End ReminderHandlers.

(** The envelope of a successful and of a failed tool call. *)
Definition toolSuccess (result : string) : CallToolResult :=
  {| content := [ {| type := "text"; text := result |} ]; isError := false |}.

Definition toolFailure (env : ProcessEnv) (operationName : string)
    (error : Thrown) : CallToolResult :=
  {| content := [ {| type := "text";
                     text := createErrorMessage env operationName error |} ];
     isError := true |}.

(** The text of a result that holds a single content item. *)
Definition resultText (r : CallToolResult) : option string :=
  match content r with
  | [item] => Some (text item)
  | _ => None
  end.

(** ** The validator of [validation/schemas] *)

(** Modelled from the spec: [validateInput] and the schemas live in
    [validation/schemas], which is not among the sources.  Section 4.1 of the
    specification describes them: a schema lists fields, each required or
    optional, each with a type or format check; validation fails with a
    [ValidationError] that names the field and the reason when a required
    field is missing or a supplied value fails its check, and otherwise
    yields the supplied fields of the schema. *)
Record FieldRule : Type := {
  fieldName : string;
  required : bool;
  accepts : JsValue -> bool
}.

(** Modelled from the spec: the issue a field raises, if any: a required
    field that is missing, or a supplied value that fails the field's
    check. *)
Definition fieldIssue (input : gmap string JsValue) (rule : FieldRule)
    : option (string * string) :=
  match input !! fieldName rule with
  | None => if required rule then Some (fieldName rule, "Required") else None
  | Some v => if accepts rule v then None
              else Some (fieldName rule, "Invalid value")
  end.

(** Modelled from the spec: an issue is reported as the field's name and
    the reason. *)
Definition renderIssue (issue : string * string) : string :=
  issue.1 +:+ ": " +:+ issue.2.

(** Modelled from the spec: [validateInput], which gathers the issues of
    all fields and throws a [ValidationError] that reports each of them, or
    returns the supplied fields that the schema knows. *)
Definition validateInputSpec (rules : list FieldRule)
    (input : gmap string JsValue) : Outcome (gmap string JsValue) :=
  match omap (fieldIssue input) rules with
  | [] => Resolved (filter (fun kv => kv.1 ∈ fieldName <$> rules) input)
  | issues =>
      Rejected (ValidationError (join "; " (renderIssue <$> issues)))
  end.

(** The operation name each handler reports failures under. *)
Definition operationNameOf (schema : ReminderSchema) : string :=
  match schema with
  | CreateReminderSchema => "create reminder"
  | UpdateReminderSchema => "update reminder"
  | DeleteReminderSchema => "delete reminder"
  | ReadRemindersSchema => "read reminders"
  end.

(** The handler that validates against each schema. *)
Definition reminderHandler (env : ProcessEnv)
    (formatMultilineNotes : string -> string)
    (validateInput :
       ReminderSchema -> gmap string JsValue -> Outcome (gmap string JsValue))
    (repository : ReminderRepository) (schema : ReminderSchema)
    : gmap string JsValue -> CallToolResult :=
  match schema with
  | CreateReminderSchema =>
      handleCreateReminder env validateInput repository
  | UpdateReminderSchema =>
      handleUpdateReminder env validateInput repository
  | DeleteReminderSchema =>
      handleDeleteReminder env validateInput repository
  | ReadRemindersSchema =>
      handleReadReminders env formatMultilineNotes validateInput repository
  end.

(** ** The native helper: trusted path, invocation, repository adapter *)

(** Modelled from the spec: [utils/binaryValidator], [utils/cliExecutor] and
    [utils/reminderRepository] are not among the sources.  Sections 4.2 to
    4.4 of the specification describe them: [resolve] fails with
    [UntrustedBinaryError] when the configured path is not absolute, when it
    resolves (after following any symlink) outside the allow-listed
    directory, or, in the production posture, when the content hash differs
    from the pinned one; the check is a precondition of every invocation;
    the invoker passes the argument list as discrete elements; a timeout
    raises [TimeoutError] and a non-zero exit code [HelperExecutionError]. *)
Module Helper.

Record Path : Type := {
  absolute : bool;
  segments : list string
}.

#[global] Instance Path_eq_dec : EqDecision Path.
Proof. solve_decision. Defined.

Record FileSystem : Type := {
  readlink : Path -> option Path;
  contentHash : Path -> string
}.

(** Modelled from the spec: following any symlink, giving up after [fuel]
    links as the operating system does on a loop. *)
Fixpoint realpath (fuel : nat) (fs : FileSystem) (p : Path) : option Path :=
  match readlink fs p with
  | None => Some p
  | Some target =>
      match fuel with
      | O => None
      | S fuel' => realpath fuel' fs target
      end
  end.

Definition MAX_SYMLINKS : nat := 40.

Record BinaryConfig : Type := {
  configuredPath : Path;
  allowedDirectory : list string;
  production : bool;
  expectedHash : string
}.

Inductive HelperError : Type :=
  | UntrustedBinaryError
  | TimeoutError
  | HelperExecutionError (stderr : string).

Definition insideDirectory (directory : list string) (p : Path) : bool :=
  absolute p && bool_decide (directory `prefix_of` segments p).

(** Modelled from the spec: [resolve] of section 4.2. *)
Definition resolve (cfg : BinaryConfig) (fs : FileSystem)
    : HelperError + Path :=
  if negb (absolute (configuredPath cfg)) then inl UntrustedBinaryError
  else
    match realpath MAX_SYMLINKS fs (configuredPath cfg) with
    | None => inl UntrustedBinaryError
    | Some target =>
        if negb (insideDirectory (allowedDirectory cfg) target)
        then inl UntrustedBinaryError
        else if production cfg
                && negb (String.eqb (contentHash fs target) (expectedHash cfg))
        then inl UntrustedBinaryError
        else inr target
    end.

Inductive Subcommand : Type :=
  | CreateCommand
  | ReadCommand
  | UpdateCommand
  | DeleteCommand.

Record CommandInvocation : Type := {
  command : Subcommand;
  arguments : list string
}.

Record ProcessOutput : Type := {
  stdout : string;
  stderr : string;
  exitCode : Z;
  timedOut : bool
}.

(** What the pipeline does that an observer of the process can see. *)
Inductive Event : Type :=
  | ArgumentListBuilt (invocation : CommandInvocation)
  | SubprocessSpawned (binary : Path) (invocation : CommandInvocation).

(** Modelled from the spec: one call of the helper (sections 4.2, 4.3 and
    9): the path is validated first, as a precondition; the argument list is
    built next; the subprocess is spawned last. *)
Definition runHelper {Request : Type} (cfg : BinaryConfig) (fs : FileSystem)
    (helper : Path -> CommandInvocation -> ProcessOutput)
    (build : Request -> CommandInvocation) (request : Request)
    : list Event * (HelperError + string) :=
  match resolve cfg fs with
  | inl e => ([], inl e)
  | inr binary =>
      let invocation := build request in
      let output := helper binary invocation in
      ([ArgumentListBuilt invocation; SubprocessSpawned binary invocation],
       if timedOut output then inl TimeoutError
       else if negb (Z.eqb (exitCode output) 0)
       then inl (HelperExecutionError (stderr output))
       else inr (stdout output))
  end.

Definition spawned (e : Event) : bool :=
  match e with
  | SubprocessSpawned _ _ => true
  | ArgumentListBuilt _ => false
  end.

(** Modelled from the spec: the message of each helper error. *)
Definition errorMessage (e : HelperError) : string :=
  match e with
  | UntrustedBinaryError => "Untrusted helper binary"
  | TimeoutError => "Helper timed out"
  | HelperExecutionError stderr => stderr
  end.

(** Modelled from the spec: each supplied field becomes a flag and its
    value, two elements of the argument array. *)
Definition flagArguments (fields : list (string * option JsValue))
    : list string :=
  flat_map (fun field =>
              match field.2 with
              | Some v => ["--" +:+ field.1; jsToString (Some v)]
              | None => []
              end) fields.

(** Modelled from the spec: the command of a create request. *)
Definition createReminderInvocation (data : gmap string JsValue)
    : CommandInvocation :=
  {| command := CreateCommand;
     arguments := flagArguments [
       ("title", data !! "title");
       ("notes", data !! "notes");
       ("url", data !! "url");
       ("list", data !! "list");
       ("dueDate", data !! "dueDate") ] |}.

(** Modelled from the spec: [reminderRepository.createReminder], which runs
    the helper and parses what it printed; [parseReminder] is the wire
    format, which the specification leaves open. *)
Definition createReminderAdapter (cfg : BinaryConfig) (fs : FileSystem)
    (helper : Path -> CommandInvocation -> ProcessOutput)
    (parseReminder : string -> option Reminder.t)
    (data : gmap string JsValue) : Outcome Reminder.t :=
  match (runHelper cfg fs helper createReminderInvocation data).2 with
  | inl e => Rejected (OtherError (errorMessage e))
  | inr out =>
      match parseReminder out with
      | Some reminder => Resolved reminder
      | None => Rejected (OtherError "Unreadable helper output")
      end
  end.

End Helper.

(** ** Re-reading a rendered reminder *)

(** The detail line of an optional field: none unless the field is truthy. *)
Definition detailLine (label : string) (render : string -> string)
    (value : option string) : list string :=
  if present value then [label +:+ render (interpolate value)] else [].

(** Some line of [lines] starts with [label]. *)
Definition hasLine (label : string) (lines : list string) : bool :=
  existsb (fun line => startsWith line label) lines.

(** A line that opens an item of a list: the dash and the checkbox. *)
Definition isItemLine (line : string) : bool := startsWith line "- [".

(** The text of a single reminder. *)
Definition renderReminder (formatMultilineNotes : string -> string)
    (reminder : Reminder.t) : string :=
  join LF (formatReminderMarkdown formatMultilineNotes reminder).

(** [text.split('\n')] *)
Fixpoint splitLinesFrom (current : string) (s : string) : list string :=
  match s with
  | EmptyString => [current]
  | String c s' =>
      if Ascii.eqb c (ascii_of_nat 10)
      then current :: splitLinesFrom "" s'
      else splitLinesFrom (current +:+ String c "") s'
  end.

Definition splitLines (s : string) : list string := splitLinesFrom "" s.

(** The rest of [s] after the prefix [p], when [s] starts with [p]. *)
Fixpoint stripPrefix (p s : string) : option string :=
  match p, s with
  | EmptyString, _ => Some s
  | String a p', String b s' =>
      if Ascii.eqb a b then stripPrefix p' s' else None
  | String _ _, EmptyString => None
  end.

(** The value of the first line that carries [label]. *)
Definition readField (label : string) (lines : list string) : option string :=
  head (omap (stripPrefix label) lines).

(** Modelled from the spec: the re-reading of a rendered record that the
    round-trip property of section 8 speaks of; the sources hold no parser of
    this text.  The reader follows the layout of [formatReminderMarkdown]:
    the first line holds the checkbox and the title, each detail line its
    label and value. *)
Definition rereadReminder (text : string) : option Reminder.t :=
  match splitLines text with
  | [] => None
  | first :: details =>
      let fields (title : string) (isCompleted : bool) :=
        Reminder.make title isCompleted
          (readField "  - List: " details)
          (readField "  - ID: " details)
          (readField "  - Notes: " details)
          (readField "  - Due: " details)
          (readField "  - URL: " details) in
      match stripPrefix "- [x] " first, stripPrefix "- [ ] " first with
      | Some title, _ => Some (fields title true)
      | None, Some title => Some (fields title false)
      | None, None => None
      end
  end.

(** ** The reminder handlers with their calls recorded *)

(** The handlers of [reminderHandlers.ts] once more, with every call they
    make to [validateInput] and to [reminderRepository] written to a log in
    the order in which the calls are made.  A computation is its log and its
    outcome; nothing runs after a call that throws. *)
Module Traced.

Inductive Call : Type :=
  | ValidateInput (schema : ReminderSchema) (input : gmap string JsValue)
  | CreateReminder (data : gmap string JsValue)
  | UpdateReminder (data : gmap string JsValue)
  | DeleteReminder (id : option JsValue)
  | FindReminderById (id : option JsValue)
  | FindReminders (filter : gmap string JsValue).

Definition Logged (A : Type) : Type := (list Call * Outcome A)%type.

(** A call, with what it returned or threw. *)
Definition call {A : Type} (c : Call) (result : Outcome A) : Logged A :=
  ([c], result).

Definition bind {A B : Type} (m : Logged A) (k : A -> Logged B) : Logged B :=
  match m.2 with
  | Resolved a => (m.1 ++ (k a).1, (k a).2)
  | Rejected e => (m.1, Rejected e)
  end.

Declare Scope logged_scope.
Delimit Scope logged_scope with logged.
Notation "'await' x <- m ; k" := (bind m (fun x => k))
  (at level 10, x name, m at level 100, k at level 200) : logged_scope.

Section Handlers.
Variable env : ProcessEnv.
Variable formatMultilineNotes : string -> string.
Variable validateInput :
  ReminderSchema -> gmap string JsValue -> Outcome (gmap string JsValue).
Variable reminderRepository : ReminderRepository.

Definition handleAsyncOperation (operation : unit -> Logged string)
    (operationName : string) : list Call * CallToolResult :=
  ((operation tt).1,
   handleAsyncOperation env (fun _ => (operation tt).2) operationName).

Definition extractAndValidateArgs (args : option (gmap string JsValue))
    (schema : ReminderSchema) : Logged (gmap string JsValue) :=
  let rest := delete "action" (default ∅ args) in
  call (ValidateInput schema rest) (validateInput schema rest).

Definition handleCreateReminder (args : gmap string JsValue)
    : list Call * CallToolResult :=
  handleAsyncOperation (fun _ =>
    (await validatedArgs <-
       extractAndValidateArgs (Some args) CreateReminderSchema;
     let data := jsObject [
       ("title", validatedArgs !! "title");
       ("notes", validatedArgs !! "note");
       ("url", validatedArgs !! "url");
       ("list", validatedArgs !! "targetList");
       ("dueDate", validatedArgs !! "dueDate") ] in
     await reminder <-
       call (CreateReminder data) (createReminder reminderRepository data);
     ([], Resolved (formatSuccessMessage created "reminder"
                      (Reminder.title reminder)
                      (interpolate (Reminder.id reminder)))))%logged)
    "create reminder".

Definition handleUpdateReminder (args : gmap string JsValue)
    : list Call * CallToolResult :=
  handleAsyncOperation (fun _ =>
    (await validatedArgs <-
       extractAndValidateArgs (Some args) UpdateReminderSchema;
     let data := jsObject [
       ("id", validatedArgs !! "id");
       ("newTitle", validatedArgs !! "title");
       ("notes", validatedArgs !! "note");
       ("url", validatedArgs !! "url");
       ("isCompleted", validatedArgs !! "completed");
       ("list", validatedArgs !! "targetList");
       ("dueDate", validatedArgs !! "dueDate") ] in
     await reminder <-
       call (UpdateReminder data) (updateReminder reminderRepository data);
     ([], Resolved (formatSuccessMessage updated "reminder"
                      (Reminder.title reminder)
                      (interpolate (Reminder.id reminder)))))%logged)
    "update reminder".

Definition handleDeleteReminder (args : gmap string JsValue)
    : list Call * CallToolResult :=
  handleAsyncOperation (fun _ =>
    (await validatedArgs <-
       extractAndValidateArgs (Some args) DeleteReminderSchema;
     await _ <-
       call (DeleteReminder (validatedArgs !! "id"))
         (deleteReminder reminderRepository (validatedArgs !! "id"));
     ([], Resolved (formatDeleteMessage "reminder"
                      (jsToString (validatedArgs !! "id"))
                      {| useQuotes := Some false; useIdPrefix := Some true;
                         usePeriod := Some false; useColon := None |})))%logged)
    "delete reminder".

Definition handleReadReminders (args : gmap string JsValue)
    : list Call * CallToolResult :=
  handleAsyncOperation (fun _ =>
    (await validatedArgs <-
       extractAndValidateArgs (Some args) ReadRemindersSchema;
     if truthy (args !! "id")
     then
       await reminder <-
         call (FindReminderById (args !! "id"))
           (findReminderById reminderRepository (args !! "id"));
       let markdownLines :=
         ["### Reminder"; ""]
           ++ formatReminderMarkdown formatMultilineNotes reminder in
       ([], Resolved (join LF markdownLines))
     else
       let filter := jsObject [
         ("list", validatedArgs !! "filterList");
         ("showCompleted", validatedArgs !! "showCompleted");
         ("search", validatedArgs !! "search");
         ("dueWithin", validatedArgs !! "dueWithin") ] in
       await reminders <-
         call (FindReminders filter)
           (findReminders reminderRepository filter);
       ([], Resolved (formatListMarkdown "Reminders" reminders
                        (formatReminderMarkdown formatMultilineNotes)
                        "No reminders found matching the criteria.")))%logged)
    "read reminders".

(** The handler that validates against each schema. *)
Definition reminderHandler (schema : ReminderSchema)
    : gmap string JsValue -> list Call * CallToolResult :=
  match schema with
  | CreateReminderSchema => handleCreateReminder
  | UpdateReminderSchema => handleUpdateReminder
  | DeleteReminderSchema => handleDeleteReminder
  | ReadRemindersSchema => handleReadReminders
  end.

End Handlers.

(** The repository calls that belong to the handler of each schema. *)
Definition belongsTo (schema : ReminderSchema) (c : Call) : bool :=
  match schema, c with
  | CreateReminderSchema, CreateReminder _ => true
  | UpdateReminderSchema, UpdateReminder _ => true
  | DeleteReminderSchema, DeleteReminder _ => true
  | ReadRemindersSchema, FindReminderById _ => true
  | ReadRemindersSchema, FindReminders _ => true
  | _, _ => false
  end.

(** The calls that change the store. *)
Definition mutates (c : Call) : bool :=
  match c with
  | CreateReminder _ | UpdateReminder _ | DeleteReminder _ => true
  | _ => false
  end.

End Traced.

(** ** server/handlers.ts *)

Module ServerHandlers.
Section Handlers.
Context {PromptDefinition PromptResponse : Type}.
(** [getPromptDefinition] and [buildPromptResponse] of [server/prompts],
    [handleToolCall] of [tools/index]. *)
Variable getPromptDefinition : string -> option PromptDefinition.
Variable buildPromptResponse :
  PromptDefinition -> option (gmap string JsValue) -> Outcome PromptResponse.
Variable handleToolCall : string -> gmap string JsValue -> CallToolResult.

(** The handler registered for [CallToolRequestSchema]. *)
Definition callToolHandler (name : string)
    (arguments : option (gmap string JsValue)) : CallToolResult :=
  handleToolCall name (default ∅ arguments).

(** The handler registered for [GetPromptRequestSchema]; [name] and
    [arguments] are the two properties read from [request.params]. *)
Definition getPromptHandler (name : option JsValue)
    (arguments : option (gmap string JsValue)) : Outcome PromptResponse :=
  match name with
  | Some (JsString name) =>
      match getPromptDefinition name with
      | None => Rejected (OtherError ("Unknown prompt: " +:+ name))
      | Some promptDefinition => buildPromptResponse promptDefinition arguments
      end
  | _ => Rejected (OtherError "Prompt name must be a string.")
  end.

End Handlers.
End ServerHandlers.

(** ** server/http.ts *)

Module Http.

(** [new SSEServerTransport(endpoint, res)], told apart by the response
    object it writes to. *)
Record SSEServerTransport : Type := {
  endpoint : string;
  response : nat
}.

(** The requests that reach the two routes of [startHttpServer]:
    [GET /sse] with its response object, [POST /message] with its request
    and response objects. *)
Inductive Request : Type :=
  | GetSse (res : nat)
  | PostMessage (req res : nat).

(** What a route does: [server.connect(transport)],
    [transport.handlePostMessage(req, res)], [res.status(n).send(body)]. *)
Inductive Effect : Type :=
  | Connect (transport : SSEServerTransport)
  | HandlePostMessage (transport : SSEServerTransport) (req res : nat)
  | SendStatus (res : nat) (status : nat) (body : string).

(** One request, from the value of the variable [transport] that both
    routes close over to its next value and the effects of the route. *)
Definition route (transport : option SSEServerTransport) (request : Request)
    : option SSEServerTransport * list Effect :=
  match request with
  | GetSse res =>
      let transport := {| endpoint := "/message"; response := res |} in
      (Some transport, [Connect transport])
  | PostMessage req res =>
      match transport with
      | None => (None, [SendStatus res 400 "No active connection"])
      | Some t => (Some t, [HandlePostMessage t req res])
      end
  end.

(** The requests of a run, in the order in which they arrive. *)
Fixpoint serve (transport : option SSEServerTransport)
    (requests : list Request) : option SSEServerTransport * list Effect :=
  match requests with
  | [] => (transport, [])
  | request :: rest =>
      let step := route transport request in
      let run := serve step.1 rest in
      (run.1, step.2 ++ run.2)
  end.

(** [process.env.PORT || 3000] *)
Definition port (PORT : option string) : JsValue :=
  match PORT with
  | Some p => if String.eqb p "" then JsNumber 3000 else JsString p
  | None => JsNumber 3000
  end.

Definition isPost (request : Request) : bool :=
  match request with
  | PostMessage _ _ => true
  | GetSse _ => false
  end.

Definition refused (e : Effect) : bool :=
  match e with
  | SendStatus _ _ _ => true
  | _ => false
  end.

(** What a [POST /message] leads to while [t] is the transport. *)
Definition delivered (t : SSEServerTransport) (request : Request)
    : list Effect :=
  match request with
  | PostMessage req res => [HandlePostMessage t req res]
  | GetSse _ => []
  end.

End Http.

(** ** Sample environments, requests and stores *)

Definition productionEnv : ProcessEnv :=
  {| NODE_ENV := Some "production"; DEBUG := None |}.

Definition developmentEnv : ProcessEnv :=
  {| NODE_ENV := Some "development"; DEBUG := None |}.

(** A validator that accepts every request as it is. *)
Definition acceptAll (schema : ReminderSchema) (input : gmap string JsValue)
    : Outcome (gmap string JsValue) :=
  Resolved input.

(** A store that holds no reminder: filters match nothing, and every lookup
    by id fails with the not-found error of the repository. *)
Definition notFoundMessage (id : option JsValue) : string :=
  "Reminder with ID " +:+ jsToString id +:+ " not found".

Definition emptyStore : ReminderRepository := {|
  createReminder := fun data =>
    Resolved (Reminder.make (jsToString (data !! "title")) false
                (Some "Reminders") (Some "NEW-1") None None None);
  updateReminder := fun data =>
    Rejected (OtherError (notFoundMessage (data !! "id")));
  deleteReminder := fun id => Rejected (OtherError (notFoundMessage id));
  findReminderById := fun id => Rejected (OtherError (notFoundMessage id));
  findReminders := fun _ => Resolved []
|}.

Definition readById : gmap string JsValue :=
  {[ "action" := JsString "read"; "id" := JsString "ABC123" ]}.

Definition readAll : gmap string JsValue :=
  {[ "action" := JsString "read" ]}.

(** Modelled from the spec: the required and optional fields of the four
    reminder schemas as section 4.1 lists them, under the names the handlers
    read them by; every field here is checked to be a string, except the
    completion flags, which are booleans. *)
Definition isString (v : JsValue) : bool :=
  match v with JsString _ => true | _ => false end.

Definition isBoolean (v : JsValue) : bool :=
  match v with JsBoolean _ => true | _ => false end.

Definition specRules (schema : ReminderSchema) : list FieldRule :=
  match schema with
  | CreateReminderSchema =>
      [ {| fieldName := "title"; required := true; accepts := isString |};
        {| fieldName := "note"; required := false; accepts := isString |};
        {| fieldName := "url"; required := false; accepts := isString |};
        {| fieldName := "targetList"; required := false; accepts := isString |};
        {| fieldName := "dueDate"; required := false; accepts := isString |} ]
  | UpdateReminderSchema =>
      [ {| fieldName := "id"; required := true; accepts := isString |};
        {| fieldName := "title"; required := false; accepts := isString |};
        {| fieldName := "note"; required := false; accepts := isString |};
        {| fieldName := "url"; required := false; accepts := isString |};
        {| fieldName := "completed"; required := false; accepts := isBoolean |};
        {| fieldName := "targetList"; required := false; accepts := isString |};
        {| fieldName := "dueDate"; required := false; accepts := isString |} ]
  | DeleteReminderSchema =>
      [ {| fieldName := "id"; required := true; accepts := isString |} ]
  | ReadRemindersSchema =>
      [ {| fieldName := "id"; required := false; accepts := isString |};
        {| fieldName := "filterList"; required := false; accepts := isString |};
        {| fieldName := "showCompleted"; required := false;
           accepts := isBoolean |};
        {| fieldName := "search"; required := false; accepts := isString |};
        {| fieldName := "dueWithin"; required := false; accepts := isString |} ]
  end.

Definition titleRule : FieldRule :=
  {| fieldName := "title"; required := true; accepts := isString |}.

(** A create request that carries notes and no title. *)
Definition createWithoutTitle : gmap string JsValue :=
  {[ "action" := JsString "create"; "note" := JsString "Milk, bread" ]}.

(** The helper installed under the allow-listed directory, and a configured
    path that is a symlink to a file outside of it. *)
Definition installedHelper : Helper.Path :=
  {| Helper.absolute := true;
     Helper.segments := ["opt"; "reminders"; "bin"; "EventKitCLI"] |}.

Definition strayBinary : Helper.Path :=
  {| Helper.absolute := true; Helper.segments := ["tmp"; "EventKitCLI"] |}.

Definition trustedConfig : Helper.BinaryConfig :=
  {| Helper.configuredPath := installedHelper;
     Helper.allowedDirectory := ["opt"; "reminders"; "bin"];
     Helper.production := false;
     Helper.expectedHash := "" |}.

Definition plainFiles : Helper.FileSystem :=
  {| Helper.readlink := fun _ => None;
     Helper.contentHash := fun _ => "" |}.

Definition symlinkedAway : Helper.FileSystem :=
  {| Helper.readlink := fun p =>
       if decide (p = installedHelper) then Some strayBinary else None;
     Helper.contentHash := fun _ => "" |}.

(** A helper that answers every command with one line of output. *)
Definition echoHelper (binary : Helper.Path)
    (invocation : Helper.CommandInvocation) : Helper.ProcessOutput :=
  {| Helper.stdout := "NEW-1"; Helper.stderr := "";
     Helper.exitCode := 0; Helper.timedOut := false |}.

Definition parseCreated (out : string) : option Reminder.t :=
  Some (Reminder.make "Buy milk" false (Some "Reminders") (Some out)
          None None None).

Definition helperStore : ReminderRepository := {|
  createReminder :=
    Helper.createReminderAdapter trustedConfig plainFiles echoHelper
      parseCreated;
  updateReminder := updateReminder emptyStore;
  deleteReminder := deleteReminder emptyStore;
  findReminderById := findReminderById emptyStore;
  findReminders := findReminders emptyStore
|}.

Definition buyMilkInvocation : Helper.CommandInvocation :=
  {| Helper.command := Helper.CreateCommand;
     Helper.arguments := ["--title"; "Buy milk"] |}.

Definition createBuyMilk : gmap string JsValue :=
  {[ "action" := JsString "create"; "title" := JsString "Buy milk" ]}.

(** A reminder whose list name is present and empty. *)
Definition blankListReminder : Reminder.t :=
  Reminder.make "Buy milk" false (Some "") None None None None.

(** Two reminders with every field present that differ in title and list. *)
Definition twoLineTitleReminder : Reminder.t :=
  Reminder.make ("a" +:+ LF +:+ "  - List: b") false
    (Some "c") (Some "ABC123") (Some "n") (Some "2025-11-18 15:00:00")
    (Some "https://example.org").

Definition twoLineListReminder : Reminder.t :=
  Reminder.make "a" false
    (Some ("b" +:+ LF +:+ "  - List: c")) (Some "ABC123") (Some "n")
    (Some "2025-11-18 15:00:00") (Some "https://example.org").

(** A validator that yields the id [ABC123] and the completion flag, whatever
    the spelling of the request was, and a store that accepts every change. *)
Definition completeOnly : gmap string JsValue :=
  {[ "id" := JsString "ABC123"; "completed" := JsBoolean true ]}.

Definition normalisingValidator (schema : ReminderSchema)
    (input : gmap string JsValue) : Outcome (gmap string JsValue) :=
  Resolved completeOnly.


Definition paddedDelete : gmap string JsValue :=
  {[ "action" := JsString "delete"; "id" := JsString " ABC123 " ]}.

(** A create request that also carries an id and a completion flag. *)
Definition createWithStrayFields : gmap string JsValue :=
  {[ "action" := JsString "create"; "title" := JsString "Buy milk";
     "id" := JsString "ABC123"; "completed" := JsBoolean true ]}.

Definition acceptingStore : ReminderRepository := {|
  createReminder := createReminder emptyStore;
  updateReminder := fun data =>
    Resolved (Reminder.make "Buy milk" true (Some "Reminders")
                (Some (jsToString (data !! "id"))) None None None);
  deleteReminder := fun _ => Resolved tt;
  findReminderById := findReminderById emptyStore;
  findReminders := findReminders emptyStore
|}.

(** * Properties *)

(** ** Strings *)

#[local] Arguments String.append !s1 s2 : simpl nomatch.

Section StringFacts.
Implicit Types s t p a b : string.

Lemma append_assoc s t p : (s +:+ t) +:+ p = s +:+ t +:+ p.
Proof. induction s as [|c s IH]; simpl; [done | f_equal; exact IH]. Qed.

Lemma append_empty_r s : s +:+ "" = s.
Proof. induction s as [|c s IH]; simpl; [done | f_equal; exact IH]. Qed.

Lemma prefix_append p s : String.prefix p (p +:+ s) = true.
Proof.
  induction p as [|c p IH]; simpl; [by destruct s |].
  destruct (ascii_dec c c); [done | congruence].
Qed.

Lemma startsWith_label p s : startsWith (p +:+ s) p = true.
Proof. apply prefix_append. Qed.

Lemma includes_prefix s t : String.prefix t s = true -> includes s t = true.
Proof. intros H. destruct s; simpl in *; rewrite H; done. Qed.

Lemma includes_tail c s t : includes s t = true -> includes (String c s) t = true.
Proof. intros H. simpl. rewrite H. apply orb_true_r. Qed.

Lemma includes_append a t b : includes (a +:+ t +:+ b) t = true.
Proof.
  induction a as [|c a IH]; simpl append.
  - apply includes_prefix, prefix_append.
  - by apply includes_tail.
Qed.

Lemma includes_append_l s a t : includes s t = true -> includes (a +:+ s) t = true.
Proof.
  intros H. induction a as [|c a IH]; simpl append; [done | by apply includes_tail].
Qed.

Lemma includes_append_r s b t : includes s t = true -> includes (s +:+ b) t = true.
Proof.
  revert t. induction s as [|c s IH]; intros t H.
  - destruct t; simpl in H; [|done]. simpl. destruct b; done.
  - simpl in H. apply orb_true_iff in H as [H|H].
    + apply includes_prefix. clear IH.
      revert c s H. induction t as [|d t IHt]; intros c s H; [done|].
      simpl in *. destruct (ascii_dec d c); [|done].
      destruct s as [|c' s]; simpl.
      * destruct t; [by destruct b | done].
      * by apply IHt.
    + simpl append. apply includes_tail. by apply IH.
Qed.

Lemma includes_refl s : includes s s = true.
Proof.
  rewrite <- (append_empty_r s) at 1.
  change (s +:+ "") with ("" +:+ s +:+ ""). apply includes_append.
Qed.

Lemma includes_join sep (lines : list string) t :
  t ∈ lines -> includes (join sep lines) t = true.
Proof.
  induction lines as [|l rest IH]; [by intros ?%elem_of_nil|].
  intros [->|Hin]%elem_of_cons.
  - destruct rest; simpl; [apply includes_refl|].
    apply includes_append_r, includes_refl.
  - destruct rest as [|l' rest]; [by apply elem_of_nil in Hin|].
    change (join sep (l :: l' :: rest))
      with (l +:+ sep +:+ join sep (l' :: rest)).
    by apply includes_append_l, includes_append_l, IH.
Qed.

Lemma join_cons2 sep l l' (rest : list string) :
  join sep (l :: l' :: rest) = l +:+ sep +:+ join sep (l' :: rest).
Proof. reflexivity. Qed.

Lemma stripPrefix_append p s : stripPrefix p (p +:+ s) = Some s.
Proof.
  induction p as [|c p IH]; simpl; [done|].
  by rewrite Ascii.eqb_refl.
Qed.

Lemma singleLine_append s t :
  singleLine (s +:+ t) = singleLine s && singleLine t.
Proof.
  induction s as [|c s IH]; simpl; [done|].
  rewrite IH. by rewrite andb_assoc.
Qed.

Lemma splitLinesFrom_single current s :
  singleLine s = true -> splitLinesFrom current s = [current +:+ s].
Proof.
  revert current. induction s as [|c s IH]; intros current H; simpl in *.
  - by rewrite append_empty_r.
  - apply andb_true_iff in H as [Hc Hs].
    destruct (Ascii.eqb c _); [done|].
    rewrite IH by done. by rewrite append_assoc.
Qed.

Lemma splitLinesFrom_line current s rest :
  singleLine s = true ->
  splitLinesFrom current (s +:+ LF +:+ rest)
  = (current +:+ s) :: splitLinesFrom "" rest.
Proof.
  revert current. induction s as [|c s IH]; intros current H; simpl in *.
  - by rewrite append_empty_r.
  - apply andb_true_iff in H as [Hc Hs].
    destruct (Ascii.eqb c _); [done|].
    rewrite IH by done. by rewrite append_assoc.
Qed.

Lemma splitLines_join (lines : list string) :
  lines <> [] ->
  forallb singleLine lines = true ->
  splitLines (join LF lines) = lines.
Proof.
  unfold splitLines.
  induction lines as [|l rest IH]; [done|]. intros _ H.
  simpl in H. apply andb_true_iff in H as [Hl Hrest].
  destruct rest as [|l' rest].
  - simpl. by rewrite splitLinesFrom_single.
  - change (join LF (l :: l' :: rest))
      with (l +:+ LF +:+ join LF (l' :: rest)).
    rewrite splitLinesFrom_line by done. simpl append.
    f_equal. by apply IH.
Qed.

End StringFacts.

(** ** The error boundary *)

Section Boundary.
Variable env : ProcessEnv.
Variable formatMultilineNotes : string -> string.
Variable validateInput :
  ReminderSchema -> gmap string JsValue -> Outcome (gmap string JsValue).
Variable repository : ReminderRepository.

Lemma handleAsyncOperation_outcome operation operationName :
  handleAsyncOperation env operation operationName =
    match operation tt with
    | Resolved result => toolSuccess result
    | Rejected error => toolFailure env operationName error
    end.
Proof. unfold handleAsyncOperation. by destruct (operation tt). Qed.

Lemma handler_total schema (args : gmap string JsValue) :
  (exists result,
     reminderHandler env formatMultilineNotes validateInput repository
       schema args = toolSuccess result)
  \/ (exists error,
        reminderHandler env formatMultilineNotes validateInput repository
          schema args = toolFailure env (operationNameOf schema) error).
Proof.
  destruct schema; simpl;
    unfold handleCreateReminder, handleUpdateReminder, handleDeleteReminder,
      handleReadReminders;
    rewrite handleAsyncOperation_outcome;
    match goal with
    | |- context [match ?o with Resolved _ => _ | Rejected _ => _ end] =>
        destruct o; eauto
    end.
Qed.

Lemma handler_validation_rejected schema (args : gmap string JsValue) error :
  validateInput schema (delete "action" args) = Rejected error ->
  reminderHandler env formatMultilineNotes validateInput repository
    schema args = toolFailure env (operationNameOf schema) error.
Proof.
  intros H.
  destruct schema; simpl;
    unfold handleCreateReminder, handleUpdateReminder, handleDeleteReminder,
      handleReadReminders, extractAndValidateArgs;
    rewrite handleAsyncOperation_outcome; simpl; by rewrite H.
Qed.

Lemma handleReadReminders_stages (args : gmap string JsValue) :
  handleReadReminders env formatMultilineNotes validateInput repository args =
    match validateInput ReadRemindersSchema (delete "action" args) with
    | Rejected error => toolFailure env "read reminders" error
    | Resolved validatedArgs =>
        if truthy (args !! "id")
        then
          match findReminderById repository (args !! "id") with
          | Rejected error => toolFailure env "read reminders" error
          | Resolved reminder =>
              toolSuccess
                (join LF (["### Reminder"; ""] ++
                          formatReminderMarkdown formatMultilineNotes reminder))
          end
        else
          match findReminders repository (jsObject [
                  ("list", validatedArgs !! "filterList");
                  ("showCompleted", validatedArgs !! "showCompleted");
                  ("search", validatedArgs !! "search");
                  ("dueWithin", validatedArgs !! "dueWithin") ]) with
          | Rejected error => toolFailure env "read reminders" error
          | Resolved reminders =>
              toolSuccess
                (formatListMarkdown "Reminders" reminders
                   (formatReminderMarkdown formatMultilineNotes)
                   "No reminders found matching the criteria.")
          end
    end.
Proof.
  unfold handleReadReminders, extractAndValidateArgs.
  rewrite handleAsyncOperation_outcome. simpl.
  destruct (validateInput _ _) as [v|e]; simpl; [|done].
  destruct (truthy _).
  - by destruct (findReminderById _ _).
  - by destruct (findReminders _ _).
Qed.

Lemma handleCreateReminder_stages (args : gmap string JsValue) :
  handleCreateReminder env validateInput repository args =
    match validateInput CreateReminderSchema (delete "action" args) with
    | Rejected error => toolFailure env "create reminder" error
    | Resolved validatedArgs =>
        match createReminder repository (jsObject [
                ("title", validatedArgs !! "title");
                ("notes", validatedArgs !! "note");
                ("url", validatedArgs !! "url");
                ("list", validatedArgs !! "targetList");
                ("dueDate", validatedArgs !! "dueDate") ]) with
        | Rejected error => toolFailure env "create reminder" error
        | Resolved reminder =>
            toolSuccess
              (formatSuccessMessage created "reminder"
                 (Reminder.title reminder)
                 (interpolate (Reminder.id reminder)))
        end
    end.
Proof.
  unfold handleCreateReminder, extractAndValidateArgs.
  rewrite handleAsyncOperation_outcome. simpl.
  destruct (validateInput _ _) as [v|e]; simpl; [|done].
  by destruct (createReminder _ _).
Qed.

(** C1. Whatever the wrapped operation does, [handleAsyncOperation] returns a
    result value: the operation's string with [isError = false] when it
    resolves, the text rendered from the thrown value with [isError = true]
    when any stage of it throws; the result always holds exactly one text
    item.  Every reminder handler is such a call, so each of them ends in one
    of these two envelopes, and a rejection by the validator ends in the
    failure envelope of that handler's operation name. *)
Theorem handleAsyncOperation_uniform_result :
  forall operationName : string,
    (forall result,
       handleAsyncOperation env (fun _ => Resolved result) operationName
       = {| content := [ {| type := "text"; text := result |} ];
            isError := false |})
    /\ (forall error,
          handleAsyncOperation env (fun _ => Rejected error) operationName
          = {| content := [ {| type := "text";
                 text := createErrorMessage env operationName error |} ];
               isError := true |})
    /\ (forall operation,
          exists t,
            handleAsyncOperation env operation operationName
            = {| content := [ {| type := "text"; text := t |} ];
                 isError := match operation tt with
                            | Resolved _ => false
                            | Rejected _ => true
                            end |})
    /\ (forall schema args,
          (exists result,
             reminderHandler env formatMultilineNotes validateInput repository
               schema args = toolSuccess result)
          \/ (exists error,
                reminderHandler env formatMultilineNotes validateInput
                  repository schema args
                = toolFailure env (operationNameOf schema) error))
    /\ (forall schema args error,
          validateInput schema (delete "action" args) = Rejected error ->
          reminderHandler env formatMultilineNotes validateInput repository
            schema args = toolFailure env (operationNameOf schema) error).
Proof.
  intros operationName. repeat split.
  - intros operation. rewrite handleAsyncOperation_outcome.
    destruct (operation tt); eexists; reflexivity.
  - apply handler_total.
  - apply handler_validation_rejected.
Qed.

End Boundary.

(** ** The detail gate of [createErrorMessage] *)

Lemma isDev_spec env :
  isDev env = true <->
  NODE_ENV env = Some "development"
  \/ (exists v, DEBUG env = Some v /\ v <> "").
Proof.
  unfold isDev, present. destruct env as [node debug]; simpl. split.
  - intros [H|H]%orb_true_iff.
    + left. destruct node as [v|]; [|done].
      by apply String.eqb_eq in H as ->.
    + right. destruct debug as [v|]; [|done]. exists v. split; [done|].
      intros ->. done.
  - intros [->|(v & -> & Hv)].
    + done.
    + apply orb_true_iff. right. apply negb_true_iff.
      by apply String.eqb_neq.
Qed.

Lemma createErrorMessage_generic env operation error :
  instanceofValidationError error = false ->
  isDev env = false ->
  createErrorMessage env operation error
  = "Failed to " +:+ operation +:+ ": System error occurred".
Proof. unfold createErrorMessage. by intros -> ->. Qed.

Lemma createErrorMessage_detailed env operation error :
  instanceofValidationError error = false ->
  isDev env = true ->
  createErrorMessage env operation error
  = "Failed to " +:+ operation +:+ ": " +:+ messageOf error.
Proof. unfold createErrorMessage. by intros -> ->. Qed.

(** C2, as it stands, fails for a caught value that is not an [Error]: in
    development mode it is rendered as the fixed fallback text, the very
    text that production gives for any ordinary error, so development mode
    does not make the text show any detail of what was thrown. *)
Lemma createErrorMessage_detail_gate_counterexample :
  isDev developmentEnv = true
  /\ instanceofValidationError NotAnError = false
  /\ createErrorMessage developmentEnv "read reminders" NotAnError
     = "Failed to read reminders: System error occurred"
  /\ createErrorMessage developmentEnv "read reminders" NotAnError
     = createErrorMessage productionEnv "read reminders"
         (OtherError "disk full").
Proof. repeat split. Qed.

(** C2, amended.  For a caught [Error] the claim holds: a [ValidationError]
    is rendered as exactly its own message in every environment; any other
    [Error] is rendered in development mode ([NODE_ENV = 'development'] or
    [DEBUG] set, which the code tests by truthiness) as
    [Failed to <operation>: ] followed by its message, and otherwise as the
    fixed text [Failed to <operation>: System error occurred], which is
    built without the error's message and is the same for every underlying
    error.  A caught value that is not an [Error] has no message of its
    own: it is rendered as that same fixed text in every environment,
    development mode included.  So for every caught value that is not a
    [ValidationError] the text in development mode is
    [Failed to <operation>: ] followed by what
    [error instanceof Error ? error.message : 'System error occurred']
    yields. *)
Theorem createErrorMessage_detail_gate :
  forall (env : ProcessEnv) (operation : string),
    (isDev env = true <->
       NODE_ENV env = Some "development"
       \/ (exists v, DEBUG env = Some v /\ v <> ""))
    /\ (forall m, createErrorMessage env operation (ValidationError m) = m)
    /\ (isDev env = true ->
        forall m,
          createErrorMessage env operation (OtherError m)
          = "Failed to " +:+ operation +:+ ": " +:+ m
          /\ includes (createErrorMessage env operation (OtherError m)) m
             = true)
    /\ (isDev env = false ->
        forall e e',
          instanceofValidationError e = false ->
          instanceofValidationError e' = false ->
          createErrorMessage env operation e
          = "Failed to " +:+ operation +:+ ": System error occurred"
          /\ createErrorMessage env operation e
             = createErrorMessage env operation e')
    /\ createErrorMessage env operation NotAnError
       = "Failed to " +:+ operation +:+ ": System error occurred"
    /\ (isDev env = true ->
        forall e,
          instanceofValidationError e = false ->
          createErrorMessage env operation e
          = "Failed to " +:+ operation +:+ ": " +:+ messageOf e).
Proof.
  intros env operation. split; [apply isDev_spec|]. split; [done|].
  split; [|split; [|split]].
  - intros Hdev m.
    rewrite (createErrorMessage_detailed env operation (OtherError m)) by done.
    split; [done|]. simpl messageOf.
    do 3 apply includes_append_l. apply includes_refl.
  - intros Hdev e e' He He'.
    by rewrite !createErrorMessage_generic.
  - unfold createErrorMessage. simpl. by destruct (isDev env).
  - intros Hdev e He. by apply createErrorMessage_detailed.
Qed.

(** ** List formatting *)

Lemma fold_left_push {T : Type} (formatItem : T -> list string)
    (items : list T) (lines : list string) :
  fold_left (fun acc item => acc ++ formatItem item) items lines
  = lines ++ flat_map formatItem items.
Proof.
  revert lines. induction items as [|item items IH]; intros lines; simpl.
  - by rewrite app_nil_r.
  - rewrite IH. by rewrite <- app_assoc.
Qed.

Lemma formatListMarkdown_lines {T : Type} title (items : list T)
    formatItem emptyMessage :
  formatListMarkdown title items formatItem emptyMessage
  = join LF
      (("### " +:+ title +:+ " (Total: " +:+ pretty (length items) +:+ ")")
       :: "" ::
       match items with
       | [] => [emptyMessage]
       | _ => flat_map formatItem items
       end).
Proof.
  unfold formatListMarkdown. destruct items as [|item items]; [done|].
  change (Nat.eqb (length (item :: items)) 0) with false. cbv iota.
  by rewrite fold_left_push.
Qed.

(** C7. The text of [formatListMarkdown] is its lines joined by line feeds:
    first the header [### <title> (Total: <n>)] with [n] the length of the
    list in decimal, then an empty line, then the body; for an empty list
    the body is exactly the empty message, and [handleAsyncOperation]
    returns that text with [isError = false]. *)
Theorem formatListMarkdown_header_and_empty :
  forall (T : Type) (title : string) (items : list T)
         (formatItem : T -> list string) (emptyMessage : string),
    (exists body,
       formatListMarkdown title items formatItem emptyMessage
       = "### " +:+ title +:+ " (Total: " +:+ pretty (length items) +:+ ")"
         +:+ LF +:+ body)
    /\ (forall n : nat,
          pretty n = pretty (length items) -> n = length items)
    /\ formatListMarkdown title [] formatItem emptyMessage
       = "### " +:+ title +:+ " (Total: 0)" +:+ LF +:+ LF +:+ emptyMessage
    /\ (items <> [] ->
        formatListMarkdown title items formatItem emptyMessage
        = join LF
            (("### " +:+ title +:+ " (Total: "
                +:+ pretty (length items) +:+ ")")
             :: "" :: flat_map formatItem items))
    /\ (forall env operationName,
          handleAsyncOperation env
            (fun _ => Resolved
                        (formatListMarkdown title [] formatItem emptyMessage))
            operationName
          = toolSuccess
              ("### " +:+ title +:+ " (Total: 0)" +:+ LF +:+ LF
                 +:+ emptyMessage)).
Proof.
  intros T title items formatItem emptyMessage.
  assert (Hempty :
    formatListMarkdown title [] formatItem emptyMessage
    = "### " +:+ title +:+ " (Total: 0)" +:+ LF +:+ LF +:+ emptyMessage).
  { rewrite formatListMarkdown_lines. rewrite !join_cons2.
    change (join LF [emptyMessage]) with emptyMessage.
    change ("" +:+ LF +:+ emptyMessage) with (LF +:+ emptyMessage).
    change (" (Total: " +:+ pretty (length (@nil T)) +:+ ")")
      with " (Total: 0)".
    by rewrite !append_assoc. }
  repeat split.
  - rewrite formatListMarkdown_lines.
    set (header := "### " +:+ _).
    exists (join LF ("" :: match items with
                           | [] => [emptyMessage]
                           | _ => flat_map formatItem items
                           end)).
    subst header.
    rewrite join_cons2. by rewrite !append_assoc.
  - intros n Hn. by apply (inj pretty).
  - exact Hempty.
  - intros Hne. rewrite formatListMarkdown_lines.
    by destruct items.
  - intros env operationName.
    rewrite handleAsyncOperation_outcome. by rewrite Hempty.
Qed.

(** ** Single-record formatting *)

Section SingleRecord.
Variable formatMultilineNotes : string -> string.

Lemma formatReminderMarkdown_lines (reminder : Reminder.t) :
  formatReminderMarkdown formatMultilineNotes reminder
  = ("- " +:+ (if Reminder.isCompleted reminder then "[x]" else "[ ]")
       +:+ " " +:+ Reminder.title reminder)
    :: detailLine "  - List: " (fun s => s) (Reminder.list reminder)
    ++ detailLine "  - ID: " (fun s => s) (Reminder.id reminder)
    ++ detailLine "  - Notes: " formatMultilineNotes (Reminder.notes reminder)
    ++ detailLine "  - Due: " (fun s => s) (Reminder.dueDate reminder)
    ++ detailLine "  - URL: " (fun s => s) (Reminder.url reminder).
Proof.
  unfold formatReminderMarkdown, detailLine.
  destruct (present (Reminder.list reminder)),
    (present (Reminder.id reminder)),
    (present (Reminder.notes reminder)),
    (present (Reminder.dueDate reminder)),
    (present (Reminder.url reminder)); reflexivity.
Qed.

(** C8, as it stands, fails: a list name that is present and empty produces
    no line. *)
Lemma formatReminderMarkdown_present_counterexample :
  Reminder.list blankListReminder = Some ""
  /\ (forall f, formatReminderMarkdown f blankListReminder
                = ["- [ ] Buy milk"])
  /\ (forall f, hasLine "  - List: "
                  (formatReminderMarkdown f blankListReminder) = false).
Proof. repeat split. Qed.

(** C8, amended.  The lines of a reminder are its checkbox-and-title line
    followed, in this order, by one line for each of list, id, notes, due
    date and url that is present and not the empty string: a line with the
    field's label exists if and only if the field is truthy, and a field
    that is absent or empty adds no line at all. *)
Theorem formatReminderMarkdown_optional_fields :
  forall reminder : Reminder.t,
    let lines := formatReminderMarkdown formatMultilineNotes reminder in
    hasLine "  - List: " lines = present (Reminder.list reminder)
    /\ hasLine "  - ID: " lines = present (Reminder.id reminder)
    /\ hasLine "  - Notes: " lines = present (Reminder.notes reminder)
    /\ hasLine "  - Due: " lines = present (Reminder.dueDate reminder)
    /\ hasLine "  - URL: " lines = present (Reminder.url reminder)
    /\ length lines
       = (1 + Nat.b2n (present (Reminder.list reminder))
            + Nat.b2n (present (Reminder.id reminder))
            + Nat.b2n (present (Reminder.notes reminder))
            + Nat.b2n (present (Reminder.dueDate reminder))
            + Nat.b2n (present (Reminder.url reminder)))%nat
    /\ lines
       = ("- " +:+ (if Reminder.isCompleted reminder then "[x]" else "[ ]")
            +:+ " " +:+ Reminder.title reminder)
         :: detailLine "  - List: " (fun s => s) (Reminder.list reminder)
         ++ detailLine "  - ID: " (fun s => s) (Reminder.id reminder)
         ++ detailLine "  - Notes: " formatMultilineNotes
              (Reminder.notes reminder)
         ++ detailLine "  - Due: " (fun s => s) (Reminder.dueDate reminder)
         ++ detailLine "  - URL: " (fun s => s) (Reminder.url reminder).
Proof.
  intros reminder lines. subst lines.
  rewrite formatReminderMarkdown_lines. unfold detailLine, hasLine.
  destruct (Reminder.isCompleted reminder),
    (present (Reminder.list reminder)),
    (present (Reminder.id reminder)),
    (present (Reminder.notes reminder)),
    (present (Reminder.dueDate reminder)),
    (present (Reminder.url reminder));
    cbn [existsb app]; rewrite ?startsWith_label; repeat split.
Qed.

Lemma present_nonempty s : s <> "" -> present (Some s) = true.
Proof. intros H. simpl. apply negb_true_iff. by apply String.eqb_neq. Qed.

Lemma singleLine_label label s :
  singleLine label = true -> singleLine s = true ->
  singleLine (label +:+ s) = true.
Proof. intros H1 H2. rewrite singleLine_append. by rewrite H1, H2. Qed.

(** C9, as it stands, fails: two reminders with every field present, which
    differ in title and in list name, are rendered as the same text, so no
    reader of that text recovers the fields of both. *)
Lemma renderReminder_roundtrip_counterexample :
  (forall f, renderReminder f twoLineTitleReminder
             = renderReminder f twoLineListReminder)
  /\ Reminder.title twoLineTitleReminder <> Reminder.title twoLineListReminder
  /\ Reminder.list twoLineTitleReminder <> Reminder.list twoLineListReminder
  /\ forallb present
       [Reminder.list twoLineTitleReminder; Reminder.id twoLineTitleReminder;
        Reminder.notes twoLineTitleReminder;
        Reminder.dueDate twoLineTitleReminder;
        Reminder.url twoLineTitleReminder;
        Reminder.list twoLineListReminder; Reminder.id twoLineListReminder;
        Reminder.notes twoLineListReminder;
        Reminder.dueDate twoLineListReminder;
        Reminder.url twoLineListReminder] = true.
Proof. repeat split; done. Qed.

(** C9, amended.  For a reminder whose title, list, id, due date and url are
    free of line feeds and whose optional fields are all present and not
    empty, reading the rendered text line by line recovers the completion
    flag and the literal title, list, id, due date and url; the notes come
    back as [formatMultilineNotes] wrote them on their line (so literally
    where that helper leaves them unchanged), provided that line holds no
    line feed. *)
Theorem rereadReminder_renderReminder :
  forall (title listName ident notes dueDate url : string)
         (isCompleted : bool),
    singleLine title = true ->
    singleLine listName = true ->
    singleLine ident = true ->
    singleLine (formatMultilineNotes notes) = true ->
    singleLine dueDate = true ->
    singleLine url = true ->
    listName <> "" -> ident <> "" -> notes <> "" ->
    dueDate <> "" -> url <> "" ->
    rereadReminder
      (renderReminder formatMultilineNotes
         (Reminder.make title isCompleted (Some listName) (Some ident)
            (Some notes) (Some dueDate) (Some url)))
    = Some (Reminder.make title isCompleted (Some listName) (Some ident)
              (Some (formatMultilineNotes notes)) (Some dueDate) (Some url)).
Proof.
  intros title listName ident notes dueDate url isCompleted
    Ht Hl Hi Hn Hd Hu Hl' Hi' Hn' Hd' Hu'.
  unfold rereadReminder, renderReminder.
  rewrite formatReminderMarkdown_lines. unfold detailLine.
  cbn [Reminder.list Reminder.id Reminder.notes Reminder.dueDate
       Reminder.url Reminder.title Reminder.isCompleted].
  rewrite !present_nonempty by done.
  cbn [app interpolate].
  rewrite splitLines_join; [| done |].
  - destruct isCompleted; reflexivity.
  - cbn [forallb]. rewrite !singleLine_label; try done.
    by destruct isCompleted.
Qed.

End SingleRecord.

(** The round trip at a reminder with every field on one line, for a notes
    helper that leaves single-line notes as they are. *)
Lemma rereadReminder_renderReminder_witness :
  rereadReminder
    (renderReminder (fun s => s)
       (Reminder.make "Buy groceries" true (Some "Personal") (Some "ABC123")
          (Some "Milk, bread") (Some "2025-11-18 15:00:00")
          (Some "https://example.org")))
  = Some (Reminder.make "Buy groceries" true (Some "Personal") (Some "ABC123")
            (Some "Milk, bread") (Some "2025-11-18 15:00:00")
            (Some "https://example.org")).
Proof.
  apply (rereadReminder_renderReminder (fun s => s)
           "Buy groceries" "Personal" "ABC123" "Milk, bread"
           "2025-11-18 15:00:00" "https://example.org" true);
    solve [reflexivity | discriminate].
Defined.

(** ** Reading reminders *)

Section Reading.
Variable env : ProcessEnv.
Variable formatMultilineNotes : string -> string.
Variable validateInput :
  ReminderSchema -> gmap string JsValue -> Outcome (gmap string JsValue).
Variable repository : ReminderRepository.

#[local] Abbreviation handleRead :=
  (handleReadReminders env formatMultilineNotes validateInput repository).

#[local] Abbreviation readFilter validatedArgs :=
  (jsObject [
     ("list", validatedArgs !! "filterList");
     ("showCompleted", validatedArgs !! "showCompleted");
     ("search", validatedArgs !! "search");
     ("dueWithin", validatedArgs !! "dueWithin") ]).

Lemma emptyList_text (formatItem : Reminder.t -> list string) :
  formatListMarkdown "Reminders" [] formatItem
    "No reminders found matching the criteria."
  = "### Reminders (Total: 0)" +:+ LF +:+ LF
      +:+ "No reminders found matching the criteria.".
Proof. reflexivity. Qed.

(** C3, as it stands, fails: in production a lookup by id that finds nothing
    is reported with [isError = true] and the generic failure text, which
    holds neither the not-found message nor the id. *)
Lemma handleReadReminders_not_found_counterexample :
  findReminderById emptyStore (readById !! "id")
  = Rejected (OtherError "Reminder with ID ABC123 not found")
  /\ handleReadReminders productionEnv (fun s => s) acceptAll emptyStore
       readById
     = {| content := [ {| type := "text";
            text := "Failed to read reminders: System error occurred" |} ];
          isError := true |}
  /\ includes "Failed to read reminders: System error occurred"
       "not found" = false
  /\ includes "Failed to read reminders: System error occurred"
       "ABC123" = false.
Proof. repeat split; vm_compute; reflexivity. Qed.

(** C3, amended.  For a read request that validation accepts: without a
    truthy id and with a filter that matches nothing, the result has
    [isError = false] and its text is the list header followed by the empty
    message; with a truthy id whose lookup throws an error that is not a
    [ValidationError], the result has [isError = true], and its text is
    [Failed to read reminders: ] followed by the lookup's message in
    development mode and the generic failure text otherwise.  The two
    results differ in [isError]. *)
Theorem handleReadReminders_empty_outcomes :
  forall (args validatedArgs : gmap string JsValue),
    validateInput ReadRemindersSchema (delete "action" args)
    = Resolved validatedArgs ->
    (truthy (args !! "id") = false ->
     findReminders repository (readFilter validatedArgs) = Resolved [] ->
     handleRead args
     = toolSuccess ("### Reminders (Total: 0)" +:+ LF +:+ LF
                      +:+ "No reminders found matching the criteria.")
     /\ isError (handleRead args) = false
     /\ includes ("### Reminders (Total: 0)" +:+ LF +:+ LF
                    +:+ "No reminders found matching the criteria.")
          "No reminders found matching the criteria." = true)
    /\ (truthy (args !! "id") = true ->
        forall error,
          findReminderById repository (args !! "id") = Rejected error ->
          instanceofValidationError error = false ->
          isError (handleRead args) = true
          /\ resultText (handleRead args)
             = Some (if isDev env
                     then "Failed to read reminders: " +:+ messageOf error
                     else "Failed to read reminders: System error occurred")
          /\ handleRead args
             <> toolSuccess ("### Reminders (Total: 0)" +:+ LF +:+ LF
                              +:+ "No reminders found matching the criteria.")).
Proof.
  intros args validatedArgs Hvalid. split.
  - intros Hid Hnone. rewrite handleReadReminders_stages.
    rewrite Hvalid, Hid, Hnone. rewrite emptyList_text. by repeat split.
  - intros Hid error Hmiss Herror. rewrite handleReadReminders_stages.
    rewrite Hvalid, Hid, Hmiss. repeat split; [|done].
    unfold toolFailure, resultText, createErrorMessage; simpl.
    rewrite Herror. by destruct (isDev env).
Qed.

(** C10. [handleReadReminders] validates first: a rejection is the result
    whatever the id is.  Once validation has accepted, the branch is chosen
    by the truthiness of the raw [args.id]: an absent or empty id goes to
    [findReminders] with the validated filters and yields the list text; a
    truthy id goes to [findReminderById], called with the raw [args.id]
    whatever the validated object holds. *)
Theorem handleReadReminders_raw_id_routing :
  forall args : gmap string JsValue,
    (forall error,
       validateInput ReadRemindersSchema (delete "action" args)
       = Rejected error ->
       handleRead args = toolFailure env "read reminders" error)
    /\ (args !! "id" = None \/ args !! "id" = Some (JsString "") ->
        truthy (args !! "id") = false)
    /\ (forall validatedArgs,
          validateInput ReadRemindersSchema (delete "action" args)
          = Resolved validatedArgs ->
          truthy (args !! "id") = false ->
          handleRead args
          = match findReminders repository (readFilter validatedArgs) with
            | Resolved reminders =>
                toolSuccess
                  (formatListMarkdown "Reminders" reminders
                     (formatReminderMarkdown formatMultilineNotes)
                     "No reminders found matching the criteria.")
            | Rejected error => toolFailure env "read reminders" error
            end)
    /\ (forall validatedArgs,
          validateInput ReadRemindersSchema (delete "action" args)
          = Resolved validatedArgs ->
          truthy (args !! "id") = true ->
          handleRead args
          = match findReminderById repository (args !! "id") with
            | Resolved reminder =>
                toolSuccess
                  (join LF (["### Reminder"; ""] ++
                     formatReminderMarkdown formatMultilineNotes reminder))
            | Rejected error => toolFailure env "read reminders" error
            end).
Proof.
  intros args. repeat split.
  - intros error H. rewrite handleReadReminders_stages. by rewrite H.
  - by intros [-> | ->].
  - intros v Hv Hid. rewrite handleReadReminders_stages.
    rewrite Hv, Hid. by destruct (findReminders _ _).
  - intros v Hv Hid. rewrite handleReadReminders_stages.
    rewrite Hv, Hid. by destruct (findReminderById _ _).
Qed.

End Reading.

(** The two empty outcomes at the empty store, in development mode. *)
Lemma handleReadReminders_empty_outcomes_witness :
  handleReadReminders developmentEnv (fun s => s) acceptAll emptyStore readAll
  = toolSuccess ("### Reminders (Total: 0)" +:+ LF +:+ LF
                   +:+ "No reminders found matching the criteria.")
  /\ resultText
       (handleReadReminders developmentEnv (fun s => s) acceptAll emptyStore
          readById)
     = Some "Failed to read reminders: Reminder with ID ABC123 not found".
Proof.
  split.
  - exact (proj1 (proj1 (handleReadReminders_empty_outcomes developmentEnv
                           (fun s => s) acceptAll emptyStore readAll
                           (delete "action" readAll) eq_refl)
                    eq_refl eq_refl)).
  - exact (proj1 (proj2 (proj2 (handleReadReminders_empty_outcomes
                                  developmentEnv (fun s => s) acceptAll
                                  emptyStore readById
                                  (delete "action" readById) eq_refl)
                           eq_refl
                           (OtherError (notFoundMessage (readById !! "id")))
                           eq_refl eq_refl))).
Defined.

(** ** Missing required fields *)

Lemma includes_join_elem sep (lines : list string) t u :
  t ∈ lines -> includes t u = true -> includes (join sep lines) u = true.
Proof.
  intros Hin Hu.
  induction lines as [|l rest IH]; [by apply elem_of_nil in Hin|].
  apply elem_of_cons in Hin as [->|Hin].
  - destruct rest; [done|]. rewrite join_cons2. by apply includes_append_r.
  - destruct rest as [|l' rest]; [by apply elem_of_nil in Hin|].
    rewrite join_cons2. by apply includes_append_l, includes_append_l, IH.
Qed.

Lemma renderIssue_names_field field reason :
  includes (renderIssue (field, reason)) field = true.
Proof. unfold renderIssue. simpl. apply includes_append_r, includes_refl. Qed.

Lemma validateInputSpec_missing (rules : list FieldRule)
    (input : gmap string JsValue) (rule : FieldRule) :
  rule ∈ rules ->
  required rule = true ->
  input !! fieldName rule = None ->
  exists message,
    validateInputSpec rules input = Rejected (ValidationError message)
    /\ includes message (fieldName rule) = true.
Proof.
  intros Hin Hreq Hmissing.
  assert (Hissue : (fieldName rule, "Required") ∈ omap (fieldIssue input) rules).
  { apply list_elem_of_omap. exists rule. split; [done|].
    unfold fieldIssue. by rewrite Hmissing, Hreq. }
  unfold validateInputSpec.
  destruct (omap (fieldIssue input) rules) as [|issue issues] eqn:Hissues.
  { by apply elem_of_nil in Hissue. }
  eexists. split; [reflexivity|].
  apply includes_join_elem with (t := renderIssue (fieldName rule, "Required")).
  - by apply list_elem_of_fmap_2.
  - apply renderIssue_names_field.
Qed.

(** C4. Against the validator of section 4.1, a request that omits a field
    its schema requires is rejected with a [ValidationError] whose message
    holds the name of that field, and the handler of that schema returns
    [isError = true] with exactly that message as its text, in every
    environment. *)
Theorem missing_required_field_is_named :
  forall (env : ProcessEnv) (formatMultilineNotes : string -> string)
         (rules : ReminderSchema -> list FieldRule)
         (repository : ReminderRepository) (schema : ReminderSchema)
         (rule : FieldRule) (args : gmap string JsValue),
    rule ∈ rules schema ->
    required rule = true ->
    args !! fieldName rule = None ->
    exists message,
      extractAndValidateArgs (fun s => validateInputSpec (rules s))
        (Some args) schema
      = Rejected (ValidationError message)
      /\ includes message (fieldName rule) = true
      /\ reminderHandler env formatMultilineNotes
           (fun s => validateInputSpec (rules s)) repository schema args
         = {| content := [ {| type := "text"; text := message |} ];
              isError := true |}.
Proof.
  intros env formatMultilineNotes rules repository schema rule args
    Hin Hreq Hmissing.
  destruct (validateInputSpec_missing (rules schema) (delete "action" args)
              rule Hin Hreq) as (message & Hrejected & Hnamed).
  { apply lookup_delete_None. by right. }
  exists message. split; [exact Hrejected|]. split; [exact Hnamed|].
  by rewrite (handler_validation_rejected env formatMultilineNotes
                (fun s => validateInputSpec (rules s)) repository schema args
                (ValidationError message) Hrejected).
Qed.

(** A create request without a title, in production. *)
Lemma missing_required_field_is_named_witness :
  exists message,
    extractAndValidateArgs (fun s => validateInputSpec (specRules s))
      (Some createWithoutTitle) CreateReminderSchema
    = Rejected (ValidationError message)
    /\ includes message "title" = true
    /\ reminderHandler productionEnv (fun s => s)
         (fun s => validateInputSpec (specRules s)) emptyStore
         CreateReminderSchema createWithoutTitle
       = {| content := [ {| type := "text"; text := message |} ];
            isError := true |}.
Proof.
  apply (missing_required_field_is_named productionEnv (fun s => s) specRules
           emptyStore CreateReminderSchema titleRule createWithoutTitle).
  - apply list_elem_of_here.
  - reflexivity.
  - reflexivity.
Defined.

(** ** The trusted helper path *)

Section TrustedPath.
Import Helper.
Context {Request : Type}.
Variable cfg : BinaryConfig.
Variable fs : FileSystem.
Variable helper : Path -> CommandInvocation -> ProcessOutput.
Variable build : Request -> CommandInvocation.

Lemma resolve_error_is_untrusted e :
  resolve cfg fs = inl e -> e = UntrustedBinaryError.
Proof.
  unfold resolve.
  destruct (negb (absolute (configuredPath cfg))); [by intros [= <-]|].
  destruct (realpath _ _ _) as [target|]; [|by intros [= <-]].
  destruct (negb (insideDirectory _ _)); [by intros [= <-]|].
  destruct (production cfg && _); [by intros [= <-]|done].
Qed.

Lemma runHelper_unresolved e request :
  resolve cfg fs = inl e -> runHelper cfg fs helper build request = ([], inl e).
Proof. intros H. unfold runHelper. by rewrite H. Qed.

Lemma spawned_only_trusted request binary invocation :
  SubprocessSpawned binary invocation
    ∈ (runHelper cfg fs helper build request).1 ->
  resolve cfg fs = inr binary
  /\ insideDirectory (allowedDirectory cfg) binary = true.
Proof.
  unfold runHelper. destruct (resolve cfg fs) as [e|trusted] eqn:Hresolve.
  { by intros ?%elem_of_nil. }
  cbn [fst]. intros Hin.
  apply elem_of_cons in Hin as [Heq|Hin]; [done|].
  apply elem_of_cons in Hin as [Heq|Hin]; [|by apply elem_of_nil in Hin].
  injection Heq as <- _. split; [done|].
  revert Hresolve. unfold resolve.
  destruct (negb (absolute (configuredPath cfg))); [done|].
  destruct (realpath _ _ _) as [target|]; [|done].
  destruct (insideDirectory _ target) eqn:Hinside; [|done]. cbn [negb].
  destruct (production cfg && _); [done|]. by intros [= <-].
Qed.

Lemma resolve_outside target :
  realpath MAX_SYMLINKS fs (configuredPath cfg) = Some target ->
  insideDirectory (allowedDirectory cfg) target = false ->
  resolve cfg fs = inl UntrustedBinaryError.
Proof.
  intros Hreal Hout. unfold resolve.
  destruct (negb (absolute (configuredPath cfg))); [done|].
  by rewrite Hreal, Hout.
Qed.

(** C5. Against the resolver of section 4.2: when the configured path is a
    symlink and following the links ends outside the allow-listed directory,
    [resolve] fails with [UntrustedBinaryError], and a call of the helper
    ends with that error after no event at all: no argument list was built
    and no subprocess was spawned. *)
Theorem untrusted_symlink_spawns_nothing :
  forall (link target : Path) (request : Request),
    readlink fs (configuredPath cfg) = Some link ->
    realpath MAX_SYMLINKS fs (configuredPath cfg) = Some target ->
    insideDirectory (allowedDirectory cfg) target = false ->
    resolve cfg fs = inl UntrustedBinaryError
    /\ runHelper cfg fs helper build request = ([], inl UntrustedBinaryError)
    /\ existsb spawned (runHelper cfg fs helper build request).1 = false
    /\ forall invocation,
         ArgumentListBuilt invocation
           ∉ (runHelper cfg fs helper build request).1.
Proof.
  intros link target request _ Hreal Hout.
  pose proof (resolve_outside target Hreal Hout) as Hresolve.
  rewrite (runHelper_unresolved _ request Hresolve).
  repeat split; [done|]. intros invocation. apply not_elem_of_nil.
Qed.

End TrustedPath.

(** The configured path is a symlink to a file under [/tmp]. *)
Lemma untrusted_symlink_spawns_nothing_witness :
  Helper.runHelper trustedConfig symlinkedAway echoHelper
    Helper.createReminderInvocation
    ({[ "title" := JsString "Buy milk" ]} : gmap string JsValue)
  = ([], inl Helper.UntrustedBinaryError).
Proof.
  exact (proj1 (proj2 (untrusted_symlink_spawns_nothing trustedConfig
                         symlinkedAway echoHelper
                         Helper.createReminderInvocation strayBinary
                         strayBinary {[ "title" := JsString "Buy milk" ]}
                         eq_refl eq_refl eq_refl))).
Defined.

(** ** Creating a reminder *)

Section Creating.
Import Helper.
Variable env : ProcessEnv.
Variable validateInput :
  ReminderSchema -> gmap string JsValue -> Outcome (gmap string JsValue).
Variable repository : ReminderRepository.
Variable cfg : BinaryConfig.
Variable fs : FileSystem.
Variable helper : Path -> CommandInvocation -> ProcessOutput.
Variable parseReminder : string -> option Reminder.t.

Lemma createReminderInvocation_title (title : string) :
  createReminderInvocation
    (jsObject [
       ("title", ({[ "title" := JsString title ]} : gmap string JsValue)
                   !! "title");
       ("notes", ({[ "title" := JsString title ]} : gmap string JsValue)
                   !! "note");
       ("url", ({[ "title" := JsString title ]} : gmap string JsValue)
                 !! "url");
       ("list", ({[ "title" := JsString title ]} : gmap string JsValue)
                  !! "targetList");
       ("dueDate", ({[ "title" := JsString title ]} : gmap string JsValue)
                     !! "dueDate") ])
  = {| command := CreateCommand; arguments := ["--title"; title] |}.
Proof. reflexivity. Qed.

(** C6. Against the adapter of sections 4.3 and 4.4: for a create request
    whose validated arguments are the title [Buy milk], with a trusted
    helper path, the helper is spawned once, with the create subcommand and
    the argument array [--title], [Buy milk]; when it exits with code 0 and
    what it printed parses to a reminder of that title with an id, the
    result has [isError = false] and its text is the sentence
    [Successfully created reminder "Buy milk".], a line feed, and the line
    [- ID: <id>]. *)
Theorem create_buy_milk :
  forall (args : gmap string JsValue) (binary : Path)
         (reminder : Reminder.t) (ident : string),
    validateInput CreateReminderSchema (delete "action" args)
    = Resolved {[ "title" := JsString "Buy milk" ]} ->
    createReminder repository
    = createReminderAdapter cfg fs helper parseReminder ->
    resolve cfg fs = inr binary ->
    timedOut (helper binary buyMilkInvocation) = false ->
    exitCode (helper binary buyMilkInvocation) = 0%Z ->
    parseReminder (stdout (helper binary buyMilkInvocation)) = Some reminder ->
    Reminder.title reminder = "Buy milk" ->
    Reminder.id reminder = Some ident ->
    (runHelper cfg fs helper createReminderInvocation
       ({[ "title" := JsString "Buy milk" ]} : gmap string JsValue)).1
    = [ArgumentListBuilt buyMilkInvocation;
       SubprocessSpawned binary buyMilkInvocation]
    /\ handleCreateReminder env validateInput repository args
       = {| content := [ {| type := "text";
              text := "Successfully created reminder " +:+ DQUOTE
                        +:+ "Buy milk" +:+ DQUOTE +:+ "." +:+ LF
                        +:+ "- ID: " +:+ ident |} ];
            isError := false |}.
Proof.
  intros args binary reminder ident
    Hvalid Hrepo Hresolve Htime Hexit Hparse Htitle Hid.
  split.
  - unfold runHelper. by rewrite Hresolve.
  - rewrite handleCreateReminder_stages, Hvalid, Hrepo.
    unfold createReminderAdapter, runHelper. rewrite Hresolve.
    rewrite createReminderInvocation_title.
    fold buyMilkInvocation.
    rewrite Htime, Hexit. cbn [snd negb Z.eqb]. rewrite Hparse.
    rewrite Htitle, Hid. reflexivity.
Qed.

End Creating.

(** The scenario at a helper that prints the new id. *)
Lemma create_buy_milk_witness :
  (Helper.runHelper trustedConfig plainFiles echoHelper
     Helper.createReminderInvocation
     ({[ "title" := JsString "Buy milk" ]} : gmap string JsValue)).1
  = [Helper.ArgumentListBuilt buyMilkInvocation;
     Helper.SubprocessSpawned installedHelper buyMilkInvocation]
  /\ handleCreateReminder productionEnv acceptAll helperStore createBuyMilk
     = {| content := [ {| type := "text";
            text := "Successfully created reminder " +:+ DQUOTE
                      +:+ "Buy milk" +:+ DQUOTE +:+ "." +:+ LF
                      +:+ "- ID: " +:+ "NEW-1" |} ];
          isError := false |}.
Proof.
  exact (create_buy_milk productionEnv acceptAll helperStore trustedConfig
           plainFiles echoHelper parseCreated createBuyMilk installedHelper
           (Reminder.make "Buy milk" false (Some "Reminders") (Some "NEW-1")
              None None None)
           "NEW-1" eq_refl eq_refl eq_refl eq_refl eq_refl eq_refl eq_refl
           eq_refl).
Defined.

(** ** Further properties of the shared helpers *)

(** [extractAndValidateArgs] hands the validator the arguments without
    their [action] field and with every other field as it was; arguments
    that are [undefined] are validated as the empty object. *)
Lemma extractAndValidateArgs_strips_action :
  forall (Schema : Type)
         (validateInput :
            Schema -> gmap string JsValue -> Outcome (gmap string JsValue))
         (schema : Schema) (args : gmap string JsValue),
    extractAndValidateArgs validateInput (Some args) schema
    = validateInput schema (delete "action" args)
    /\ (delete "action" args : gmap string JsValue) !! "action" = None
    /\ (forall key, key <> "action" ->
          (delete "action" args : gmap string JsValue) !! key = args !! key)
    /\ extractAndValidateArgs validateInput None schema
       = validateInput schema ∅.
Proof.
  intros Schema validateInput schema args.
  split; [reflexivity|]. split; [apply lookup_delete_eq|]. split.
  - intros key Hkey. by apply lookup_delete_ne.
  - unfold extractAndValidateArgs. simpl. by rewrite delete_empty.
Qed.

(** [formatSuccessMessage] writes [Successfully created <type> "<title>".]
    or [Successfully updated <type> "<title>".], except for an updated list,
    where it writes [Successfully updated list to "<title>".]; the second
    line is always [- ID: <id>]. *)
Lemma formatSuccessMessage_text :
  forall itemType title id : string,
    formatSuccessMessage created itemType title id
    = "Successfully created " +:+ itemType +:+ " " +:+ DQUOTE +:+ title
        +:+ DQUOTE +:+ "." +:+ LF +:+ "- ID: " +:+ id
    /\ formatSuccessMessage updated "list" title id
       = "Successfully updated list to " +:+ DQUOTE +:+ title
           +:+ DQUOTE +:+ "." +:+ LF +:+ "- ID: " +:+ id
    /\ (itemType <> "list" ->
        formatSuccessMessage updated itemType title id
        = "Successfully updated " +:+ itemType +:+ " " +:+ DQUOTE +:+ title
            +:+ DQUOTE +:+ "." +:+ LF +:+ "- ID: " +:+ id).
Proof.
  intros itemType title id. unfold formatSuccessMessage.
  split; [|split].
  - cbn [andb]. by rewrite !append_assoc.
  - reflexivity.
  - intros Hne. apply String.eqb_neq in Hne. rewrite Hne. cbn [andb].
    by rewrite !append_assoc.
Qed.

(** With its default options [formatDeleteMessage] writes
    [Successfully deleted <type> with ID: "<identifier>".]; with the options
    of [handleDeleteReminder] it writes
    [Successfully deleted reminder with ID: <identifier>], without quotes
    and without the period. *)
Lemma formatDeleteMessage_text :
  forall itemType identifier : string,
    formatDeleteMessage itemType identifier
      {| useQuotes := None; useIdPrefix := None; usePeriod := None;
         useColon := None |}
    = "Successfully deleted " +:+ itemType +:+ " with ID: " +:+ DQUOTE
        +:+ identifier +:+ DQUOTE +:+ "."
    /\ formatDeleteMessage "reminder" identifier
         {| useQuotes := Some false; useIdPrefix := Some true;
            usePeriod := Some false; useColon := None |}
       = "Successfully deleted reminder with ID: " +:+ identifier.
Proof.
  intros itemType identifier. unfold formatDeleteMessage. cbn [default
    useQuotes useIdPrefix usePeriod useColon from_option].
  split.
  - by rewrite !append_assoc.
  - cbn. by rewrite append_empty_r.
Qed.

(** ** The calls of the reminder handlers *)

Section Calls.
Variable env : ProcessEnv.
Variable formatMultilineNotes : string -> string.
Variable validateInput :
  ReminderSchema -> gmap string JsValue -> Outcome (gmap string JsValue).
Variable repository : ReminderRepository.

#[local] Abbreviation logged :=
  (Traced.reminderHandler env formatMultilineNotes validateInput repository).

Ltac unfold_logged :=
  unfold Traced.reminderHandler, Traced.handleCreateReminder,
    Traced.handleUpdateReminder, Traced.handleDeleteReminder,
    Traced.handleReadReminders, Traced.handleAsyncOperation,
    Traced.extractAndValidateArgs, Traced.bind, Traced.call;
  cbn [fst snd from_option id].

Lemma logged_rejected schema (args : gmap string JsValue) error :
  validateInput schema (delete "action" args) = Rejected error ->
  (logged schema args).1
  = [Traced.ValidateInput schema (delete "action" args)].
Proof.
  intros H. destruct schema; unfold_logged; by rewrite H.
Qed.

Lemma logged_accepted schema (args validatedArgs : gmap string JsValue) :
  validateInput schema (delete "action" args) = Resolved validatedArgs ->
  exists c,
    (logged schema args).1
    = [Traced.ValidateInput schema (delete "action" args); c]
    /\ Traced.belongsTo schema c = true.
Proof.
  intros H. destruct schema; unfold_logged; rewrite H; cbn [fst snd].
  - eexists. split; [by destruct (createReminder _ _)|reflexivity].
  - eexists. split; [by destruct (deleteReminder _ _)|reflexivity].
  - destruct (truthy _); cbn [fst snd].
    + eexists. split; [by destruct (findReminderById _ _)|reflexivity].
    + eexists. split; [by destruct (findReminders _ _)|reflexivity].
  - eexists. split; [by destruct (updateReminder _ _)|reflexivity].
Qed.

Lemma logged_result schema (args : gmap string JsValue) :
  (logged schema args).2
  = reminderHandler env formatMultilineNotes validateInput repository
      schema args.
Proof.
  destruct schema; simpl reminderHandler;
    unfold handleCreateReminder, handleUpdateReminder, handleDeleteReminder,
      handleReadReminders, extractAndValidateArgs, bind;
    unfold_logged;
    rewrite !handleAsyncOperation_outcome; cbn [from_option id];
    destruct (validateInput _ _) as [v|e]; cbn [fst snd]; try done.
  - by destruct (createReminder _ _).
  - by destruct (deleteReminder _ _).
  - destruct (truthy _); cbn [fst snd].
    + by destruct (findReminderById _ _).
    + by destruct (findReminders _ _).
  - by destruct (updateReminder _ _).
Qed.

(** X2. Every reminder handler calls the validator first, once, on the
    arguments without their [action] field; after a rejection it calls
    nothing else, after an acceptance it makes exactly one repository call,
    and that call is the one of its own operation.  In particular a read
    never creates, updates or deletes.  The result is the one of the
    handler without the log. *)
Theorem handlers_call_discipline :
  forall (schema : ReminderSchema) (args : gmap string JsValue),
    exists calls,
      (logged schema args).1
      = Traced.ValidateInput schema (delete "action" args) :: calls
      /\ forallb (Traced.belongsTo schema) calls = true
      /\ (forall error,
            validateInput schema (delete "action" args) = Rejected error ->
            calls = [])
      /\ (forall validatedArgs,
            validateInput schema (delete "action" args)
            = Resolved validatedArgs ->
            length calls = 1%nat)
      /\ (schema = ReadRemindersSchema ->
          existsb Traced.mutates calls = false)
      /\ (logged schema args).2
         = reminderHandler env formatMultilineNotes validateInput repository
             schema args.
Proof.
  intros schema args.
  destruct (validateInput schema (delete "action" args)) as [v|e] eqn:Hvalid.
  - destruct (logged_accepted schema args v Hvalid) as (c & Hlog & Hc).
    exists [c]. split; [exact Hlog|]. split; [by rewrite <- Hc; simpl; rewrite andb_true_r|].
    split; [done|]. split; [done|]. split; [|apply logged_result].
    intros ->. simpl. by destruct c.
  - exists []. split; [by apply (logged_rejected schema args e)|].
    split; [done|]. split; [done|]. split; [done|].
    split; [done|apply logged_result].
Qed.

End Calls.

(** ** What the handlers pass to the repository *)

Lemma jsObject_lookup_Some props key (v : JsValue) :
  jsObject props !! key = Some v -> (key, Some v) ∈ props.
Proof.
  induction props as [|[k [w|]] rest IH]; simpl.
  - by rewrite lookup_empty.
  - destruct (decide (k = key)) as [->|Hne].
    + rewrite lookup_insert_eq. intros [= ->]. apply list_elem_of_here.
    + rewrite lookup_insert_ne by done. intros H.
      by apply list_elem_of_further, IH.
  - intros H. by apply list_elem_of_further, IH.
Qed.

Lemma jsObject_lookup_notin props key :
  key ∉ props.*1 -> jsObject props !! key = None.
Proof.
  intros Hnotin. destruct (jsObject props !! key) as [v|] eqn:H; [|done].
  apply jsObject_lookup_Some in H. destruct Hnotin.
  by apply (list_elem_of_fmap_2 fst) in H.
Qed.

Lemma jsObject_lookup_nodup props key (value : option JsValue) :
  NoDup props.*1 -> (key, value) ∈ props -> jsObject props !! key = value.
Proof.
  induction props as [|[k w] rest IH]; [by intros _ ?%elem_of_nil|].
  rewrite fmap_cons. cbn [fst]. intros [Hk Hrest]%NoDup_cons Hin.
  apply elem_of_cons in Hin as [[= <- <-]|Hin].
  - destruct value as [v|]; simpl.
    + apply lookup_insert_eq.
    + by apply jsObject_lookup_notin.
  - assert (k <> key) as Hne.
    { intros ->. apply Hk. by apply (list_elem_of_fmap_2 fst) in Hin. }
    destruct w as [v|]; simpl; [rewrite lookup_insert_ne by done|]; by apply IH.
Qed.

Ltac forwarded :=
  apply jsObject_lookup_nodup;
  [ cbn [fmap list_fmap fst]; by apply (bool_decide_unpack _)
  | set_solver ].



(** X4. When validation accepts a create request, [createReminder] receives
    the validated [title], [url] and [dueDate] under their own names, [note]
    as [notes] and [targetList] as [list], and nothing else: an [id] or a
    completion flag in the validated arguments is not passed on. *)
Theorem handleCreateReminder_forwards_supplied_fields :
  forall (env : ProcessEnv)
         (validateInput :
            ReminderSchema -> gmap string JsValue ->
            Outcome (gmap string JsValue))
         (repository : ReminderRepository)
         (args validatedArgs : gmap string JsValue),
    validateInput CreateReminderSchema (delete "action" args)
    = Resolved validatedArgs ->
    exists data : gmap string JsValue,
      (Traced.handleCreateReminder env validateInput repository args).1
      = [Traced.ValidateInput CreateReminderSchema (delete "action" args);
         Traced.CreateReminder data]
      /\ data !! "title" = validatedArgs !! "title"
      /\ data !! "notes" = validatedArgs !! "note"
      /\ data !! "url" = validatedArgs !! "url"
      /\ data !! "list" = validatedArgs !! "targetList"
      /\ data !! "dueDate" = validatedArgs !! "dueDate"
      /\ (forall key,
            key ∉ ["title"; "notes"; "url"; "list"; "dueDate"] ->
            data !! key = None).
Proof.
  intros env validateInput repository args v Hvalid.
  eexists. split.
  { unfold Traced.handleCreateReminder, Traced.handleAsyncOperation,
      Traced.extractAndValidateArgs, Traced.bind, Traced.call.
    cbn [fst snd from_option id]. rewrite Hvalid. cbn [fst snd].
    by destruct (createReminder _ _). }
  repeat split; try forwarded.
  intros key Hkey. by apply jsObject_lookup_notin.
Qed.

(** A create request that also carries an id and a completion flag, passed
    through by a validator that accepts everything. *)
Lemma handleCreateReminder_forwards_supplied_fields_witness :
  exists data : gmap string JsValue,
    (Traced.handleCreateReminder productionEnv acceptAll emptyStore
       createWithStrayFields).1
    = [Traced.ValidateInput CreateReminderSchema
         (delete "action" createWithStrayFields);
       Traced.CreateReminder data]
    /\ data !! "title" = Some (JsString "Buy milk")
    /\ data !! "notes" = None
    /\ data !! "url" = None
    /\ data !! "list" = None
    /\ data !! "dueDate" = None
    /\ (forall key,
          key ∉ ["title"; "notes"; "url"; "list"; "dueDate"] ->
          data !! key = None).
Proof.
  exact (handleCreateReminder_forwards_supplied_fields productionEnv
           acceptAll emptyStore createWithStrayFields
           (delete "action" createWithStrayFields) eq_refl).
Defined.

(** X5. [handleDeleteReminder] deletes by the validated id, not by the raw
    one: after an accepted validation the one repository call is
    [deleteReminder] with the validated id; when it succeeds the text is
    [Successfully deleted reminder with ID: <validated id>], without quotes
    and without a period, and when it throws the result is the failure
    envelope of [delete reminder]. *)
Theorem handleDeleteReminder_uses_validated_id :
  forall (env : ProcessEnv)
         (validateInput :
            ReminderSchema -> gmap string JsValue ->
            Outcome (gmap string JsValue))
         (repository : ReminderRepository)
         (args validatedArgs : gmap string JsValue),
    validateInput DeleteReminderSchema (delete "action" args)
    = Resolved validatedArgs ->
    (Traced.handleDeleteReminder env validateInput repository args).1
    = [Traced.ValidateInput DeleteReminderSchema (delete "action" args);
       Traced.DeleteReminder (validatedArgs !! "id")]
    /\ handleDeleteReminder env validateInput repository args
       = match deleteReminder repository (validatedArgs !! "id") with
         | Resolved _ =>
             toolSuccess ("Successfully deleted reminder with ID: "
                            +:+ jsToString (validatedArgs !! "id"))
         | Rejected error => toolFailure env "delete reminder" error
         end.
Proof.
  intros env validateInput repository args v Hvalid. split.
  - unfold Traced.handleDeleteReminder, Traced.handleAsyncOperation,
      Traced.extractAndValidateArgs, Traced.bind, Traced.call.
    cbn [fst snd from_option id]. rewrite Hvalid. cbn [fst snd].
    by destruct (deleteReminder _ _).
  - unfold handleDeleteReminder, extractAndValidateArgs, bind.
    rewrite handleAsyncOperation_outcome. cbn [from_option id].
    rewrite Hvalid. destruct (deleteReminder _ _); [|done].
    f_equal. unfold formatDeleteMessage. cbn. by rewrite append_empty_r.
Qed.

(** A delete request whose id is padded with blanks, validated to the id
    [ABC123]: that id is deleted and named in the text. *)
Lemma handleDeleteReminder_uses_validated_id_witness :
  (Traced.handleDeleteReminder productionEnv normalisingValidator
     acceptingStore paddedDelete).1
  = [Traced.ValidateInput DeleteReminderSchema (delete "action" paddedDelete);
     Traced.DeleteReminder (Some (JsString "ABC123"))]
  /\ handleDeleteReminder productionEnv normalisingValidator acceptingStore
       paddedDelete
     = toolSuccess "Successfully deleted reminder with ID: ABC123".
Proof.
  exact (handleDeleteReminder_uses_validated_id productionEnv
           normalisingValidator acceptingStore paddedDelete completeOnly
           eq_refl).
Defined.

(** ** The routes of the HTTP server *)

Section HttpRoutes.
Import Http.

Lemma serve_app transport (before after : list Request) :
  serve transport (before ++ after)
  = ((serve (serve transport before).1 after).1,
     (serve transport before).2 ++ (serve (serve transport before).1 after).2).
Proof.
  revert transport. induction before as [|r before IH]; intros transport.
  - simpl. by destruct (serve transport after).
  - simpl. rewrite IH. cbn [fst snd]. by rewrite app_assoc.
Qed.

Lemma serve_posts t (posts : list Request) :
  forallb isPost posts = true ->
  serve (Some t) posts = (Some t, flat_map (delivered t) posts).
Proof.
  induction posts as [|[res|req res] posts IH]; simpl; [done..|].
  intros H. by rewrite IH.
Qed.

(** X6. Until some client has opened [GET /sse], every [POST /message] is
    answered with status 400 and the body [No active connection], nothing
    is handed to a transport, and the server still has no transport. *)
Theorem serve_without_connection :
  forall posts : list Request,
    forallb isPost posts = true ->
    serve None posts
    = (None,
       flat_map (fun request =>
                   match request with
                   | PostMessage _ res =>
                       [SendStatus res 400 "No active connection"]
                   | GetSse _ => []
                   end) posts).
Proof.
  induction posts as [|[res|req res] posts IH]; simpl; [done..|].
  intros H. by rewrite IH.
Qed.

(** X7. The server keeps a single transport: after a [GET /sse], every
    [POST /message] that arrives before the next [GET /sse] is handed to
    the transport of that latest connection, with the endpoint [/message],
    whatever was connected before and whoever sends the message. *)
Theorem serve_latest_transport :
  forall (transport : option SSEServerTransport)
         (before posts : list Request) (res : nat),
    forallb isPost posts = true ->
    serve transport (before ++ GetSse res :: posts)
    = (Some {| endpoint := "/message"; response := res |},
       (serve transport before).2
       ++ Connect {| endpoint := "/message"; response := res |}
       :: flat_map (delivered {| endpoint := "/message"; response := res |})
            posts).
Proof.
  intros transport before posts res Hposts.
  rewrite serve_app. cbn [serve route fst snd].
  by rewrite serve_posts.
Qed.

(** X8. Once a transport exists, no [POST /message] is ever refused, and
    the server never goes back to having no transport: the variable is
    only ever replaced by a newer transport, also after the client of the
    current one has gone. *)
Theorem serve_connected_never_refuses :
  forall (t : SSEServerTransport) (requests : list Request),
    existsb refused (serve (Some t) requests).2 = false
    /\ exists t', (serve (Some t) requests).1 = Some t'.
Proof.
  intros t requests. revert t.
  induction requests as [|[res|req res] requests IH]; intros t.
  - split; [done|by exists t].
  - simpl. apply IH.
  - simpl. apply IH.
Qed.

End HttpRoutes.

(** No connection yet, two messages. *)
Lemma serve_without_connection_witness :
  Http.serve None [Http.PostMessage 1 2; Http.PostMessage 3 4]
  = (None, [Http.SendStatus 2 400 "No active connection";
            Http.SendStatus 4 400 "No active connection"]).
Proof.
  exact (serve_without_connection
           [Http.PostMessage 1 2; Http.PostMessage 3 4] eq_refl).
Defined.

(** Two clients connect, then the first one posts: its message goes to the
    transport of the second. *)
Lemma serve_latest_transport_witness :
  Http.serve None [Http.GetSse 1; Http.GetSse 2; Http.PostMessage 10 11]
  = (Some {| Http.endpoint := "/message"; Http.response := 2 |},
     [Http.Connect {| Http.endpoint := "/message"; Http.response := 1 |};
      Http.Connect {| Http.endpoint := "/message"; Http.response := 2 |};
      Http.HandlePostMessage
        {| Http.endpoint := "/message"; Http.response := 2 |} 10 11]).
Proof.
  exact (serve_latest_transport None [Http.GetSse 1]
           [Http.PostMessage 10 11] 2 eq_refl).
Defined.

(** ** The prompt handler *)

Section GetPrompt.
Import ServerHandlers.
Context {PromptDefinition PromptResponse : Type}.
Variable getPromptDefinition : string -> option PromptDefinition.
Variable buildPromptResponse :
  PromptDefinition -> option (gmap string JsValue) -> Outcome PromptResponse.

#[local] Abbreviation getPrompt :=
  (getPromptHandler getPromptDefinition buildPromptResponse).

(** X9. The handler of [GetPrompt] answers only for a name that is a string
    and has a definition, and then with what [buildPromptResponse] makes of
    that definition and the arguments.  A name that is not a string throws
    [Prompt name must be a string.]; a string without a definition throws
    [Unknown prompt: <name>], whatever [buildPromptResponse] would do.  These
    are thrown as they are: this handler has no error envelope. *)
Theorem getPromptHandler_outcomes :
  forall (name : option JsValue) (arguments : option (gmap string JsValue)),
    (forall response,
       getPrompt name arguments = Resolved response <->
       exists n definition,
         name = Some (JsString n)
         /\ getPromptDefinition n = Some definition
         /\ buildPromptResponse definition arguments = Resolved response)
    /\ ((forall n, name <> Some (JsString n)) ->
        getPrompt name arguments
        = Rejected (OtherError "Prompt name must be a string."))
    /\ (forall n,
          name = Some (JsString n) ->
          getPromptDefinition n = None ->
          getPrompt name arguments
          = Rejected (OtherError ("Unknown prompt: " +:+ n))
          /\ includes ("Unknown prompt: " +:+ n) n = true).
Proof.
  intros name arguments. split; [|split].
  - intros response. split.
    + unfold getPromptHandler.
      destruct name as [[| | |n]|]; try done.
      destruct (getPromptDefinition n) as [definition|] eqn:Hdef; [|done].
      intros H. by exists n, definition.
    + intros (n & definition & -> & Hdef & Hbuild).
      unfold getPromptHandler. by rewrite Hdef.
  - intros Hname. unfold getPromptHandler.
    destruct name as [[| | |n]|]; try done. by destruct (Hname n).
  - intros n -> Hdef. unfold getPromptHandler. rewrite Hdef.
    split; [done|]. apply includes_append_l, includes_refl.
Qed.

End GetPrompt.

(** ** The count in the header of a list *)

Lemma singleLine_pretty_N_go (x : N) (s : string) :
  singleLine s = true -> singleLine (pretty_N_go x s) = true.
Proof.
  revert s. induction (N.lt_wf_0 x) as [x _ IH]; intros s Hs.
  assert (x = 0 \/ 0 < x)%N as [->|Hpos] by lia.
  - by rewrite pretty_N_go_0.
  - rewrite pretty_N_go_step by done. apply IH.
    { by apply N.div_lt. }
    simpl. rewrite Hs. unfold pretty_N_char.
    by repeat case_match.
Qed.

Lemma singleLine_pretty_nat (n : nat) : singleLine (pretty n) = true.
Proof.
  unfold pretty, pretty_nat, pretty, pretty_N.
  case_decide; [done|]. by apply singleLine_pretty_N_go.
Qed.

Lemma forallb_flat_map {A B : Type} (p : B -> bool) (f : A -> list B)
    (l : list A) :
  forallb p (flat_map f l) = forallb (fun a => forallb p (f a)) l.
Proof.
  induction l as [|a l IH]; simpl; [done|].
  by rewrite forallb_app, IH.
Qed.

Lemma itemLines_of_reminder formatMultilineNotes (reminder : Reminder.t) :
  length (List.filter isItemLine
            (formatReminderMarkdown formatMultilineNotes reminder)) = 1%nat.
Proof.
  rewrite formatReminderMarkdown_lines. unfold detailLine, isItemLine.
  destruct (Reminder.isCompleted reminder),
    (present (Reminder.list reminder)),
    (present (Reminder.id reminder)),
    (present (Reminder.notes reminder)),
    (present (Reminder.dueDate reminder)),
    (present (Reminder.url reminder)); reflexivity.
Qed.

Lemma itemLines_of_reminders formatMultilineNotes
    (reminders : list Reminder.t) :
  length (List.filter isItemLine
            (flat_map (formatReminderMarkdown formatMultilineNotes)
               reminders))
  = length reminders.
Proof.
  induction reminders as [|reminder reminders IH]; simpl; [done|].
  rewrite List.filter_app, length_app, IH.
  by rewrite itemLines_of_reminder.
Qed.

(** X10. In the text of a list of reminders the number after [Total:] is the
    number of lines that open an item: when the title, the empty message and
    every rendered line of every reminder hold no line feed, and the empty
    message does not itself look like an item, the lines of the text that
    start with [- [] are exactly as many as the reminders, and the first
    line is the header with that number. *)
Theorem formatListMarkdown_count_matches_items :
  forall (formatMultilineNotes : string -> string)
         (title emptyMessage : string) (reminders : list Reminder.t),
    singleLine title = true ->
    singleLine emptyMessage = true ->
    isItemLine emptyMessage = false ->
    forallb (fun reminder =>
               forallb singleLine
                 (formatReminderMarkdown formatMultilineNotes reminder))
      reminders = true ->
    let lines :=
      splitLines
        (formatListMarkdown title reminders
           (formatReminderMarkdown formatMultilineNotes) emptyMessage) in
    length (List.filter isItemLine lines) = length reminders
    /\ head lines
       = Some ("### " +:+ title +:+ " (Total: "
                 +:+ pretty (length reminders) +:+ ")").
Proof.
  intros f title emptyMessage reminders Htitle Hempty Hitem Hlines lines.
  subst lines. rewrite formatListMarkdown_lines.
  rewrite splitLines_join; [|done|].
  - split; [|done]. cbn [List.filter].
    change (isItemLine "") with false. cbv iota.
    replace (isItemLine (_ +:+ _)) with false by reflexivity.
    destruct reminders as [|reminder reminders].
    + simpl. by rewrite Hitem.
    + apply itemLines_of_reminders.
  - cbn [forallb]. apply andb_true_iff. split.
    { rewrite !singleLine_append, Htitle, singleLine_pretty_nat.
      reflexivity. }
    apply andb_true_iff. split; [done|].
    destruct reminders as [|reminder reminders].
    + simpl. by rewrite Hempty.
    + by rewrite forallb_flat_map.
Qed.

(** Two reminders, one of them with notes. *)
Lemma formatListMarkdown_count_matches_items_witness :
  length
    (List.filter isItemLine
       (splitLines
          (formatListMarkdown "Reminders"
             [Reminder.make "Buy milk" false (Some "Home") (Some "A1")
                (Some "2 litres") None None;
              Reminder.make "Call Ann" true None None None None None]
             (formatReminderMarkdown (fun s => s))
             "No reminders found matching the criteria.")))
  = 2%nat
  /\ head
       (splitLines
          (formatListMarkdown "Reminders"
             [Reminder.make "Buy milk" false (Some "Home") (Some "A1")
                (Some "2 litres") None None;
              Reminder.make "Call Ann" true None None None None None]
             (formatReminderMarkdown (fun s => s))
             "No reminders found matching the criteria."))
     = Some "### Reminders (Total: 2)".
Proof.
  exact (formatListMarkdown_count_matches_items (fun s => s) "Reminders"
           "No reminders found matching the criteria."
           [Reminder.make "Buy milk" false (Some "Home") (Some "A1")
              (Some "2 litres") None None;
            Reminder.make "Call Ann" true None None None None None]
           eq_refl eq_refl eq_refl eq_refl).
Defined.

(** ** The options of the delete message *)

Ltac find_included :=
  solve [ apply includes_refl
        | apply includes_append_l; find_included
        | apply includes_append_r; find_included ].

(** X11. Whatever the options, the text of [formatDeleteMessage] starts with
    [Successfully deleted <type> ] and holds the identifier.  An option that
    is left out counts as [true]; [useColon] has no effect once
    [useIdPrefix] is [false]. *)
Theorem formatDeleteMessage_options :
  forall (itemType identifier : string) (options : DeleteMessageOptions),
    startsWith (formatDeleteMessage itemType identifier options)
      ("Successfully deleted " +:+ itemType +:+ " ") = true
    /\ includes (formatDeleteMessage itemType identifier options) identifier
       = true
    /\ formatDeleteMessage itemType identifier options
       = formatDeleteMessage itemType identifier
           {| useQuotes := Some (default true (useQuotes options));
              useIdPrefix := Some (default true (useIdPrefix options));
              usePeriod := Some (default true (usePeriod options));
              useColon := Some (default true (useColon options)) |}
    /\ (useIdPrefix options = Some false ->
        forall colon,
          formatDeleteMessage itemType identifier options
          = formatDeleteMessage itemType identifier
              {| useQuotes := useQuotes options;
                 useIdPrefix := Some false;
                 usePeriod := usePeriod options;
                 useColon := colon |}).
Proof.
  intros itemType identifier [quotes prefix period colon].
  split; [|split; [|split]].
  - unfold formatDeleteMessage.
    rewrite <- (append_assoc "Successfully deleted " itemType).
    rewrite <- append_assoc. apply startsWith_label.
  - unfold formatDeleteMessage.
    cbn [useQuotes useIdPrefix usePeriod useColon].
    destruct (default true quotes), (default true prefix),
      (default true colon); find_included.
  - reflexivity.
  - cbn [useIdPrefix]. intros -> colon'. reflexivity.
Qed.

(** ** The action field *)

Section ActionField.
Variable env : ProcessEnv.
Variable formatMultilineNotes : string -> string.
Variable validateInput :
  ReminderSchema -> gmap string JsValue -> Outcome (gmap string JsValue).
Variable repository : ReminderRepository.

#[local] Abbreviation loggedHandler :=
  (Traced.reminderHandler env formatMultilineNotes validateInput repository).

Lemma logged_same_request schema (args args' : gmap string JsValue) :
  delete "action" args = delete "action" args' ->
  args !! "id" = args' !! "id" ->
  loggedHandler schema args = loggedHandler schema args'.
Proof.
  intros Hrest Hid.
  destruct schema;
    unfold Traced.reminderHandler, Traced.handleCreateReminder,
      Traced.handleUpdateReminder, Traced.handleDeleteReminder,
      Traced.handleReadReminders, Traced.handleAsyncOperation,
      Traced.extractAndValidateArgs;
    cbn [from_option id]; rewrite Hrest; try reflexivity.
  by rewrite Hid.
Qed.

(** X1. No reminder handler looks at the [action] field of its arguments:
    with the field set to any value, changed or removed, a handler makes
    the same calls with the same arguments and returns the same result.  So
    which operation runs is decided by which handler is called alone: the
    delete handler deletes also when the arguments say [action: 'read']. *)
Theorem handlers_ignore_action :
  forall (schema : ReminderSchema) (args : gmap string JsValue)
         (action : JsValue),
    loggedHandler schema (<["action" := action]> args)
    = loggedHandler schema args
    /\ loggedHandler schema (delete "action" args)
       = loggedHandler schema args
    /\ reminderHandler env formatMultilineNotes validateInput repository
         schema (<["action" := action]> args)
       = reminderHandler env formatMultilineNotes validateInput repository
           schema args.
Proof.
  intros schema args action.
  assert (Hset :
    loggedHandler schema (<["action" := action]> args)
    = loggedHandler schema args).
  { apply logged_same_request.
    - apply delete_insert_eq.
    - by apply lookup_insert_ne. }
  split; [exact Hset|]. split.
  - apply logged_same_request.
    + apply delete_delete_eq.
    + by apply lookup_delete_ne.
  - rewrite <- !logged_result. by rewrite Hset.
Qed.

End ActionField.
